(** * explain-commit: the commit reader, the LM Studio client and the CLI

    A shallow embedding of the Go sources

      - [internal/git/git.go]    ([GetLatestCommit]),
      - [internal/llm/client.go] ([IsRunning], [StartLMStudio],
                                  [waitForServer], [ExplainCommit]),
      - [main.go] of the command ([main]),

    together with the two earlier revisions of the client that the
    repository still carries (module [Legacy]).

    Go strings are byte sequences and are modelled by [string].  The
    program talks to the operating system (environment, subprocesses,
    clock, standard output) and to an HTTP server; these interactions
    are threaded through a state monad over a record [World] that holds
    the answers of the outside world and the trace of the effects
    performed so far. *)

From Equations Require Import Equations.
From Equations.Prop Require Import Logic.
From Stdlib Require Import List String Ascii Bool Arith NArith ZArith Lia.
From Stdlib Require Import PrimFloat.
From Stdlib Require Uint63.
Import ListNotations.

#[local] Set Warnings "-inexact-float".

Local Open Scope list_scope.
Local Open Scope string_scope.

(* ================================================================== *)
(** * The parts of Go's [strings] and [fmt] packages that the code uses *)
(* ================================================================== *)

Module GoStrings.

(** The string of the bytes with the given codes. *)
Definition bytes (codes : list nat) : string :=
  string_of_list_ascii (map ascii_of_nat codes).

(** The double quote, which the prompt literals contain. *)
Definition dquote : string := bytes [34].

Definition newline : string := bytes [10].

(** UTF-8 encoding of a code point below U+10000 (the white-space runes
    all are), as [unicode/utf8.EncodeRune] produces it. *)
Definition utf8 (cp : N) : list ascii :=
  if (cp <? 128)%N then [ascii_of_N cp]
  else if (cp <? 2048)%N then
    [ascii_of_N (192 + cp / 64); ascii_of_N (128 + cp mod 64)]
  else
    [ascii_of_N (224 + cp / 4096);
     ascii_of_N (128 + (cp / 64) mod 64);
     ascii_of_N (128 + cp mod 64)].

(** The runes for which [unicode.IsSpace] holds: the Latin-1 spaces
    '\t' '\n' '\v' '\f' '\r' ' ' U+0085 U+00A0 and the other code points
    of the White_Space property. *)
Definition spaceCodePoints : list N :=
  [ 9; 10; 11; 12; 13; 32; 133; 160; 5760;
    8192; 8193; 8194; 8195; 8196; 8197; 8198; 8199; 8200; 8201; 8202;
    8232; 8233; 8239; 8287; 12288 ]%N.

Definition spaceRunes : list (list ascii) := map utf8 spaceCodePoints.

Fixpoint hasPrefix (p s : list ascii) : option (list ascii) :=
  match p, s with
  | [], _ => Some s
  | a :: p', b :: s' => if Ascii.eqb a b then hasPrefix p' s' else None
  | _ :: _, [] => None
  end.

(** The rest of [s] after its first rune, when that rune is one of
    [runes] (given by their encodings). *)
Fixpoint cutRune (runes : list (list ascii)) (s : list ascii)
  : option (list ascii) :=
  match runes with
  | [] => None
  | r :: runes' =>
      match hasPrefix r s with
      | Some rest => Some rest
      | None => cutRune runes' s
      end
  end.

(** Drops runes of [runes] from the front of [s] for as long as there is
    one; [fuel] bounds the number of runes dropped. *)
Fixpoint dropRunes (runes : list (list ascii)) (fuel : nat) (s : list ascii)
  : list ascii :=
  match fuel with
  | O => s
  | S fuel' =>
      match cutRune runes s with
      | Some rest => dropRunes runes fuel' rest
      | None => s
      end
  end.

Definition trimLeftRunes (runes : list (list ascii)) (s : list ascii) :=
  dropRunes runes (List.length s) s.

(** Trimming at the right end is trimming the reversed bytes of the
    reversed encodings: UTF-8 is self-synchronising, so the last rune of
    a string is a white-space rune exactly when the string ends with the
    encoding of one ([utf8.DecodeLastRuneInString]). *)
Definition trimRightRunes (runes : list (list ascii)) (s : list ascii) :=
  rev (trimLeftRunes (map (@rev ascii) runes) (rev s)).

Definition trimSpaceBytes (s : list ascii) : list ascii :=
  trimRightRunes spaceRunes (trimLeftRunes spaceRunes s).

(** [strings.TrimSpace]: the string without its leading and trailing
    white space, as defined by Unicode. *)
Definition TrimSpace (s : string) : string :=
  string_of_list_ascii (trimSpaceBytes (list_ascii_of_string s)).

(** [strings.TrimRight(s, cutset)] for a cutset of ASCII bytes: the
    string without the trailing bytes that belong to the cutset. *)
Definition TrimRight (s cutset : string) : string :=
  string_of_list_ascii
    (trimRightRunes (map (fun c => [c]) (list_ascii_of_string cutset))
                    (list_ascii_of_string s)).

(** [strings.Fields]: the maximal runs of bytes between white-space
    runes. *)
Fixpoint fieldsBytes (fuel : nat) (s cur : list ascii) : list (list ascii) :=
  let close := match cur with [] => [] | _ :: _ => [rev cur] end in
  match fuel with
  | O => close
  | S fuel' =>
      match cutRune spaceRunes s with
      | Some rest => (close ++ fieldsBytes fuel' rest [])%list
      | None =>
          match s with
          | [] => close
          | c :: rest => fieldsBytes fuel' rest (c :: cur)
          end
      end
  end.

Definition Fields (s : string) : list string :=
  map string_of_list_ascii
      (fieldsBytes (S (String.length s)) (list_ascii_of_string s) []).

(** [strings.Contains(s, substr)]. *)
Fixpoint containsBytes (s sub : list ascii) : bool :=
  match hasPrefix sub s with
  | Some _ => true
  | None => match s with
            | [] => false
            | _ :: s' => containsBytes s' sub
            end
  end.

Definition Contains (s substr : string) : bool :=
  containsBytes (list_ascii_of_string s) (list_ascii_of_string substr).

(** [strconv.Itoa] for a non-negative number. *)
Fixpoint digits (fuel n : nat) (acc : string) : string :=
  match fuel with
  | O => acc
  | S fuel' =>
      let acc' := String (ascii_of_nat (48 + n mod 10)) acc in
      if (n / 10 =? 0)%nat then acc' else digits fuel' (n / 10) acc'
  end.

Definition Itoa (n : nat) : string := digits (S n) n "".

(** Operands of the formatting functions: a string (also the text of an
    error, for [%v], [%w] and [%s]) or a non-negative integer. *)
Inductive operand : Type :=
| Str (s : string)
| Int (n : nat).

Definition show (o : operand) : string :=
  match o with
  | Str s => s
  | Int n => Itoa n
  end.

(** [fmt.Sprintf(format, a...)] for formats whose verbs are among [%s],
    [%d], [%v], [%w] and [%%], applied to operands of the matching kind
    (the code has no other use): ordinary bytes are copied and each verb
    is replaced by the next operand. *)
Fixpoint sprintfBytes (format : list ascii) (args : list operand) : string :=
  match format with
  | [] => ""
  | c :: rest =>
      if Ascii.eqb c "%"%char then
        match rest with
        | d :: rest' =>
            if Ascii.eqb d "%"%char then
              String "%"%char (sprintfBytes rest' args)
            else
              match args with
              | a :: args' => show a ++ sprintfBytes rest' args'
              | [] => "%!" ++ String d "(MISSING)" ++ sprintfBytes rest' []
              end
        | [] => "%!(NOVERB)"
        end
      else String c (sprintfBytes rest args)
  end.

Definition Sprintf (format : string) (args : list operand) : string :=
  sprintfBytes (list_ascii_of_string format) args.

(** A raw string literal that spans several lines. *)
Definition lines (ls : list string) : string := String.concat newline ls.

(** ** What trimming means

    A byte sequence is made of runes of [runes] when it is a
    concatenation of their encodings; white space is what is made of
    white-space runes.  [t] is [s] trimmed when [s] is [t] between two
    stretches of white space and [t] neither starts nor ends with a
    white-space rune. *)
Inductive madeOf (runes : list (list ascii)) : list ascii -> Prop :=
| madeOf_nil : madeOf runes []
| madeOf_cons r s :
    In r runes -> madeOf runes s -> madeOf runes (r ++ s)%list.

Definition startsWith (runes : list (list ascii)) (s : list ascii) : Prop :=
  exists r rest, In r runes /\ s = (r ++ rest)%list.

Definition endsWith (runes : list (list ascii)) (s : list ascii) : Prop :=
  exists r front, In r runes /\ s = (front ++ r)%list.

Definition WhiteSpace (s : string) : Prop :=
  madeOf spaceRunes (list_ascii_of_string s).

Definition Trimmed (s t : string) : Prop :=
  (exists l r, WhiteSpace l /\ WhiteSpace r /\ s = l ++ t ++ r)
  /\ ~ startsWith spaceRunes (list_ascii_of_string t)
  /\ ~ endsWith spaceRunes (list_ascii_of_string t).

(** [sub] occurs in [s]. *)
Definition Substring (sub s : string) : Prop :=
  exists before after, s = before ++ sub ++ after.

End GoStrings.
Export GoStrings.

(* ================================================================== *)
(** * Data model *)
(* ================================================================== *)

(** ** The wire types of [internal/llm/client.go] *)

Record chatMessage : Type := {
  Role : string;
  Content : string
}.

Record chatRequest : Type := {
  Model : string;
  Messages : list chatMessage;
  Temperature : float
}.

Record chatChoice : Type := {
  Message : chatMessage
}.

Record chatResponse : Type := {
  Choices : list chatChoice
}.

(** The zero value of [chatChoice]. *)
Definition zeroChoice : chatChoice :=
  {| Message := {| Role := ""; Content := "" |} |}.

(** ** Errors

    The code builds every error with [fmt.Errorf]; there is one
    constructor per call site, and [Error] gives the text.  An error of
    a library ([os/exec], [net/http], [encoding/json]) that is wrapped
    with [%w] is carried as its text. *)

Inductive error : Type :=
(* internal/git/git.go *)
| ErrGitShow (cause : string)
| ErrEmptyOutput
(* internal/llm/client.go *)
| ErrLoadModel (output : string)
| ErrStartServer (output : string)
| ErrWaitTimeout (baseURL : string)
| ErrNoCLI
| ErrMarshal (cause : string)
| ErrNewRequest (cause : string)
| ErrRequest (cause : string)
| ErrAPI (status : nat) (body : string)
| ErrDecode (cause : string)
| ErrMissingContent
(* earlier revisions *)
| ErrCmdEmpty
| ErrWindows
| ErrStartProcess (cause : string)
| ErrReadyTimeout (baseURL : string)
| ErrModelNotSet.

Definition Error (e : error) : string :=
  match e with
  | ErrGitShow cause => Sprintf "failed to run git show: %w" [Str cause]
  | ErrEmptyOutput => "empty git show output"
  | ErrLoadModel output => Sprintf "failed to load model: %s" [Str output]
  | ErrStartServer output => Sprintf "failed to start server: %s" [Str output]
  | ErrWaitTimeout baseURL =>
      Sprintf "timed out waiting for LM Studio server at %s" [Str baseURL]
  | ErrNoCLI =>
      "LM Studio is not running and `lms` CLI is not available; please install LM Studio CLI or start the server manually"
  | ErrMarshal cause => Sprintf "failed to marshal request: %w" [Str cause]
  | ErrNewRequest cause => Sprintf "failed to create HTTP request: %w" [Str cause]
  | ErrRequest cause => Sprintf "API request failed: %w" [Str cause]
  | ErrAPI status body =>
      Sprintf "API error: status %d, body: %s" [Int status; Str body]
  | ErrDecode cause => Sprintf "failed to decode response: %w" [Str cause]
  | ErrMissingContent => "invalid response: missing choices[0].message.content"
  | ErrCmdEmpty => "LM_STUDIO_CMD is set but empty"
  | ErrWindows => "LM Studio is not running; start it manually on Windows"
  | ErrStartProcess cause => Sprintf "failed to start LM Studio: %w" [Str cause]
  | ErrReadyTimeout baseURL =>
      Sprintf "timed out waiting for LM Studio to become reachable at %s"
              [Str baseURL]
  | ErrModelNotSet => "LMSTUDIO_MODEL is not set"
  end.

(** The result of a Go function that returns [(T, error)] and gives the
    zero value of [T] together with every error. *)
Inductive result (A : Type) : Type :=
| Ok (a : A)
| Err (e : error).
Arguments Ok {A} a.
Arguments Err {A} e.

(** The error taxonomy of the specification (section 7), as a
    classification of the errors of the code. *)
Inductive ErrorKind : Type :=
| ExecutionError
| TransportError
| APIError
| DecodeError
| EmptyResponseError
| TimeoutError.

Definition kind (e : error) : option ErrorKind :=
  match e with
  | ErrGitShow _ | ErrEmptyOutput => Some ExecutionError
  | ErrLoadModel _ | ErrStartServer _ | ErrStartProcess _ => Some ExecutionError
  | ErrWaitTimeout _ | ErrReadyTimeout _ => Some TimeoutError
  | ErrRequest _ => Some TransportError
  | ErrAPI _ _ => Some APIError
  | ErrDecode _ => Some DecodeError
  | ErrMissingContent => Some EmptyResponseError
  | ErrNoCLI | ErrMarshal _ | ErrNewRequest _
  | ErrCmdEmpty | ErrWindows | ErrModelNotSet => None
  end.

(** ** Library functions whose result is taken as given

    [strconv.ParseFloat(s, 64)] and the decoding of a response body by
    [encoding/json] into a [chatResponse], each giving a value or the
    text of an error, and the error of [net/url.Parse] on a URL, if it
    has one. *)
Class Library : Type := {
  ParseFloat : string -> float + string;
  Decode : string -> chatResponse + string;
  ParseURL : string -> option string
}.

(** [json.Marshal] of a [chatRequest] fails exactly on a temperature
    that is NaN or infinite; the payload is kept as the request value
    itself, its JSON text is not modelled. *)
Definition Marshal (r : chatRequest) : chatRequest + string :=
  if PrimFloat.is_finite (Temperature r) then inl r
  else inr "json: unsupported value".

(* ================================================================== *)
(** * The outside world *)
(* ================================================================== *)

(** Durations and instants, in nanoseconds as [time.Duration]. *)
Definition Second : N := 1000000000.

Record Request : Type := {
  Method : string;
  URL : string;
  Header : list (string * string);
  Body : option chatRequest
}.

(** The value of a key in a list of pairs, or the empty string. *)
Fixpoint lookup (l : list (string * string)) (key : string) : string :=
  match l with
  | [] => ""
  | (k, v) :: rest => if k =? key then v else lookup rest key
  end.

Record Response : Type := {
  StatusCode : nat;
  ResponseBody : string
}.

(** What the network does with a request: it fails (connection refused,
    reset, ...) or a response arrives, in both cases after some time. *)
Inductive Answer : Type :=
| Fails (why : string) (after : N)
| Responds (resp : Response) (after : N).

(** What a subprocess does: whether the executable could be started,
    its exit code, what it wrote and how long it ran. *)
Record Process : Type := {
  started : bool;
  exitCode : nat;
  stdout : string;
  stderr : string;
  combined : string;
  took : N
}.

Inductive Event : Type :=
| Http (req : Request)
| Exec (argv : list string)
| Spawn (argv : list string)
| Stdout (text : string)
| Stderr (text : string)
| Slept (d : N).

(** The part of the world that the program cannot change.  The network,
    the subprocesses and the scheduler answer the [n]-th interaction of
    the run; [n] is the number of events before it. *)
Record Host : Type := {
  environ : string -> string;
  Args : list string;
  GOOS : string;
  network : nat -> Request -> Answer;
  system : nat -> list string -> Process;
  overslept : nat -> N
}.

Record World : Type := {
  host : Host;
  now : N;
  trace : list Event
}.

(** ** The monad of effects *)

Definition M (A : Type) : Type := World -> A * World.

Definition ret {A : Type} (a : A) : M A := fun w => (a, w).

Definition bind {A B : Type} (m : M A) (k : A -> M B) : M B :=
  fun w => let (a, w') := m w in k a w'.

Declare Scope go_scope.
Delimit Scope go_scope with go.
Notation "x <- m ;; k" := (bind m (fun x => k))
  (at level 61, m at next level, right associativity) : go_scope.
Notation "m ;; k" := (bind m (fun _ => k))
  (at level 61, right associativity) : go_scope.
Local Open Scope go_scope.

(** One interaction: the clock advances and the event is recorded. *)
Definition step (d : N) (e : Event) (w : World) : World :=
  {| host := host w; now := (now w + d)%N; trace := (trace w ++ [e])%list |}.

(** The number of the next interaction. *)
Definition tick (w : World) : nat := List.length (trace w).

(** The events of running [m] from [w]. *)
Definition effects {A : Type} (m : M A) (w : World) : list Event :=
  skipn (tick w) (trace (snd (m w))).

(** ** [os], [fmt], [log], [time] *)

Definition Getenv (key : string) : M string :=
  fun w => (environ (host w) key, w).

Definition Println (s : string) : M unit :=
  fun w => (tt, step 0 (Stdout (s ++ newline)) w).

Definition Printf (format : string) (args : list operand) : M unit :=
  fun w => (tt, step 0 (Stdout (Sprintf format args)) w).

(** The message of [log.Fatalf], without the time stamp that the
    standard logger puts in front; the caller exits with status 1. *)
Definition Fatalf (format : string) (args : list operand) : M unit :=
  fun w => (tt, step 0 (Stderr (Sprintf format args ++ newline)) w).

Definition Now : M N := fun w => (now w, w).

(** [time.Sleep(d)] pauses for at least [d]. *)
Definition Sleep (d : N) : M unit :=
  fun w => (tt, step (d + overslept (host w) (tick w)) (Slept d) w).

(** ** [net/http]: a client with a [Timeout] *)

Definition Do (Timeout : N) (req : Request) : M (Response + string) :=
  fun w =>
    match network (host w) (tick w) req with
    | Responds resp after =>
        if (after <? Timeout)%N then (inl resp, step after (Http req) w)
        else (inr "context deadline exceeded (Client.Timeout exceeded while awaiting headers)",
              step Timeout (Http req) w)
    | Fails why after =>
        if (after <? Timeout)%N then (inr why, step after (Http req) w)
        else (inr "context deadline exceeded (Client.Timeout exceeded while awaiting headers)",
              step Timeout (Http req) w)
    end.

Definition Get (Timeout : N) (url : string) : M (Response + string) :=
  Do Timeout {| Method := "GET"; URL := url; Header := []; Body := None |}.

(** ** [os/exec] *)

(** Runs the command to its end, or to the deadline of its context when
    it has one; the error is the one that [Cmd.Run] reports. *)
Definition wait (ctx : option N) (argv : list string) : M (Process * option string) :=
  fun w =>
    let p := system (host w) (tick w) argv in
    if negb (started p) then
      ((p, Some "executable file not found in $PATH"), step 0 (Exec argv) w)
    else
      match ctx with
      | Some timeout =>
          if (took p <? timeout)%N then
            ((p, if (exitCode p =? 0)%nat then None
                 else Some (Sprintf "exit status %d" [Int (exitCode p)])),
             step (took p) (Exec argv) w)
          else ((p, Some "signal: killed"), step timeout (Exec argv) w)
      | None =>
          ((p, if (exitCode p =? 0)%nat then None
               else Some (Sprintf "exit status %d" [Int (exitCode p)])),
           step (took p) (Exec argv) w)
      end.

Definition Run (ctx : option N) (argv : list string) : M (option string) :=
  r <- wait ctx argv ;; ret (snd r).

(** [Cmd.Output]; with [forward] the standard error of the command is
    connected to the one of the caller ([cmd.Stderr = os.Stderr]). *)
Definition Output (ctx : option N) (forward : bool) (argv : list string)
  : M (string * option string) :=
  r <- wait ctx argv ;;
  (if forward && negb (stderr (fst r) =? "")
   then fun w => (tt, step 0 (Stderr (stderr (fst r))) w)
   else ret tt) ;;
  ret (stdout (fst r), snd r).

Definition CombinedOutput (ctx : option N) (argv : list string)
  : M (string * option string) :=
  r <- wait ctx argv ;; ret (combined (fst r), snd r).

(** [Cmd.Start]: the process is started and not waited for. *)
Definition Start (argv : list string) : M (option string) :=
  fun w =>
    let p := system (host w) (tick w) argv in
    (if started p then None else Some "executable file not found in $PATH",
     step 0 (Spawn argv) w).

(* ================================================================== *)
(** * [internal/git/git.go] *)
(* ================================================================== *)

Module git.

(** [GetLatestCommit] returns the full details of the HEAD commit. *)
Definition GetLatestCommit : M (result string) :=
  r <- Output None true ["git"; "show"; "--stat"; "--patch"; "HEAD"] ;;
  match snd r with
  | Some err => ret (Err (ErrGitShow err))
  | None =>
      let commitText := TrimSpace (fst r) in
      if commitText =? "" then ret (Err ErrEmptyOutput)
      else ret (Ok commitText)
  end.

End git.

(* ================================================================== *)
(** * [internal/llm/client.go] *)
(* ================================================================== *)

Module llm.

Definition defaultBaseURL : string := "http://localhost:1234/v1".
Definition defaultModel : string := "qwen/qwen3-4b-2507".
Definition defaultAPIKey : string := "lm-studio".

(** [IsRunning] checks whether the LM Studio API is reachable. *)
Definition IsRunning (baseURL : string) : M bool :=
  let baseURL := if baseURL =? "" then defaultBaseURL else baseURL in
  let endpoint := TrimRight baseURL "/" ++ "/models" in
  r <- Get (5 * Second) endpoint ;;
  match r with
  | inr _ => ret false
  | inl resp => ret (StatusCode resp =? 200)%nat
  end.

(** [isLMSCLIAvailable] checks if the [lms] CLI tool is available. *)
Definition isLMSCLIAvailable : M bool :=
  err <- Run (Some (2 * Second)%N) ["lms"; "version"] ;;
  ret (match err with None => true | Some _ => false end).

(** [isModelLoaded] checks if the model is loaded, using [lms ps]. *)
Definition isModelLoaded (modelID : string) : M bool :=
  r <- Output (Some (3 * Second)%N) false ["lms"; "ps"] ;;
  match snd r with
  | Some _ => ret false
  | None => ret (Contains (fst r) modelID)
  end.

(** [loadModel] loads a model using [lms load]. *)
Definition loadModel (modelID : string) : M (option error) :=
  Printf ("Loading model: %s..." ++ newline) [Str modelID] ;;
  r <- CombinedOutput (Some (60 * Second)%N) ["lms"; "load"; modelID] ;;
  match snd r with
  | Some _ => ret (Some (ErrLoadModel (fst r)))
  | None => Println "Model loaded successfully" ;; ret None
  end.

(** [startServerWithCLI] starts the server using [lms server start]. *)
Definition startServerWithCLI : M (option error) :=
  Println "Starting LM Studio server with `lms server start`..." ;;
  r <- CombinedOutput None ["lms"; "server"; "start"] ;;
  match snd r with
  | Some _ => ret (Some (ErrStartServer (fst r)))
  | None => ret None
  end.

(** The number of whole seconds, rounded up, that the clock of [w] is
    away from [deadline]: the measure on which the polling loop ends. *)
Definition remaining (deadline : N) (w : World) : nat :=
  N.to_nat ((deadline - now w + (Second - 1)) / Second).

Opaque IsRunning Sleep.

(** The loop of [waitForServer]:
    [for time.Now().Before(deadline) { ... time.Sleep(1 * time.Second) }]. *)
Equations? waitLoop (baseURL : string) (deadline : N) (w : World)
  : option error * World by wf (remaining deadline w) lt :=
  waitLoop baseURL deadline w with inspect (fst (Now w) <? deadline)%N => {
    | exist _ false _ :=
        (Some (ErrWaitTimeout baseURL), w);
    | exist _ true _ with inspect (IsRunning baseURL w) => {
        | exist _ (true, w1) _ :=
            (Println "LM Studio server is ready" ;; ret None) w1;
        | exist _ (false, w1) _ :=
            waitLoop baseURL deadline (snd (Sleep (1 * Second) w1)) } }.
Proof.
  Transparent IsRunning Sleep.
  match goal with H : IsRunning baseURL w = (false, w1) |- _ =>
    assert (Hup : (now w <= now w1)%N);
    [ replace w1 with (snd (IsRunning baseURL w)) by (rewrite H; reflexivity);
      unfold IsRunning, Get, Do, bind;
      destruct (network _ _ _) as [why after | resp after];
      destruct (after <? 5 * Second)%N; simpl; lia
    | clear H ]
  end.
  match goal with H : (_ <? _)%N = true |- _ =>
    apply N.ltb_lt in H; unfold Now in H; cbn [fst] in H
  end.
  unfold remaining, Sleep, step, Second in *; cbn [snd now].
  match goal with f : forall (_ : string) (_ : N) (_ : World), _ |- _ => clear f end.
  zify. Z.div_mod_to_equations. lia.
  Opaque IsRunning Sleep.
Qed.

Transparent IsRunning Sleep.


(** [waitForServer] waits for the server to become accessible. *)
Definition waitForServer (baseURL : string) (timeout : N) : M (option error) :=
  Println "Waiting for LM Studio server..." ;;
  t <- Now ;;
  let deadline := (t + timeout)%N in
  waitLoop baseURL deadline.

(** [StartLMStudio] ensures that the server is running and the model is
    loaded.  It prefers the headless [lms] CLI over starting the GUI
    application. *)
Definition StartLMStudio : M (option error) :=
  up <- IsRunning defaultBaseURL ;;
  if up then
    cli <- isLMSCLIAvailable ;;
    if cli then
      loaded <- isModelLoaded defaultModel ;;
      if negb loaded then
        Println "Model is not loaded" ;;
        err <- loadModel defaultModel ;;
        match err with
        | Some e => ret (Some e)
        | None => ret None
        end
      else ret None
    else ret None
  else
    Println "LM Studio server is not running" ;;
    cli <- isLMSCLIAvailable ;;
    if cli then
      err <- startServerWithCLI ;;
      match err with
      | Some e => ret (Some e)
      | None =>
          err <- waitForServer defaultBaseURL (30 * Second) ;;
          match err with
          | Some e => ret (Some e)
          | None =>
              loaded <- isModelLoaded defaultModel ;;
              if negb loaded then
                err <- loadModel defaultModel ;;
                match err with
                | Some e => ret (Some e)
                | None => ret None
                end
              else ret None
          end
      end
    else ret (Some ErrNoCLI).

(** The raw string literals of [ExplainCommit].  The bytes between
    [(1] and [3 bullet points)] are those of the source file. *)
Definition systemPromptLiteral : string :=
  lines [ "";
          "You are a senior software engineer explaining a Git commit to a teammate.";
          "";
          "Rules:";
          "- Give a short high-level summary first (1"
            ++ bytes [195; 162; 226; 130; 172; 226; 128; 156]
            ++ "3 bullet points).";
          "- Then describe the main code changes grouped by concern (e.g. "
            ++ dquote ++ "API" ++ dquote ++ ", "
            ++ dquote ++ "UI" ++ dquote ++ ", "
            ++ dquote ++ "tests" ++ dquote ++ ").";
          "- Explain WHY the changes might have been made (best-effort inference).";
          "- Keep it concise but clear. No more than about 20 lines total.";
          "" ].

Definition userPromptLiteral : string :=
  lines [ "";
          "Here is the latest commit on the current branch:";
          "";
          "%s";
          "";
          "Explain this commit following the rules.";
          "" ].

Section Client.

Context {lib : Library}.

(** [ExplainCommit] sends the commit text to LM Studio and returns an
    explanation.  If LM Studio is not running, it attempts to start it.
    [http.NewRequest] cannot fail on the constant URL and is elided. *)
Definition ExplainCommit (commitText : string) : M (result string) :=
  let baseURL := defaultBaseURL in
  let model := defaultModel in
  let apiKey := defaultAPIKey in
  err <- StartLMStudio ;;
  match err with
  | Some e => ret (Err e)
  | None =>
      tStr <- Getenv "EXPLAIN_TEMPERATURE" ;;
      let temp :=
        if negb (tStr =? "") then
          match ParseFloat tStr with
          | inl tParsed => tParsed
          | inr _ => 0.2%float
          end
        else 0.2%float in
      let systemPrompt := TrimSpace systemPromptLiteral in
      let userPrompt := Sprintf (TrimSpace userPromptLiteral) [Str commitText] in
      let reqBody :=
        {| Model := model;
           Messages := [ {| Role := "system"; Content := systemPrompt |};
                         {| Role := "user"; Content := userPrompt |} ];
           Temperature := temp |} in
      match Marshal reqBody with
      | inr err => ret (Err (ErrMarshal err))
      | inl payload =>
          let url := TrimRight baseURL "/" ++ "/chat/completions" in
          let httpReq :=
            {| Method := "POST";
               URL := url;
               Header := [ ("Content-Type", "application/json");
                           ("Authorization", "Bearer " ++ apiKey) ];
               Body := Some payload |} in
          r <- Do (60 * Second) httpReq ;;
          match r with
          | inr err => ret (Err (ErrRequest err))
          | inl resp =>
              if negb (StatusCode resp =? 200)%nat then
                ret (Err (ErrAPI (StatusCode resp) (ResponseBody resp)))
              else
                match Decode (ResponseBody resp) with
                | inr err => ret (Err (ErrDecode err))
                | inl chatResp =>
                    if (List.length (Choices chatResp) =? 0)%nat
                       || (Content (Message (nth 0 (Choices chatResp) zeroChoice)) =? "")
                    then ret (Err ErrMissingContent)
                    else ret (Ok (TrimSpace
                           (Content (Message (nth 0 (Choices chatResp) zeroChoice)))))
                end
          end
      end
  end.

End Client.

End llm.

(* ================================================================== *)
(** * The command: [main] *)
(* ================================================================== *)

Module cmd.

Definition usage : string :=
  lines [ "explain-commit - explain the latest Git commit using LM Studio";
          "";
          "Usage:";
          "  explain-commit [--raw]";
          "";
          "Options:";
          "  --raw   Print the raw git show output and exit" ].

Definition osArgs : M (list string) := fun w => (Args (host w), w).

Section Main.

Context {lib : Library}.

(** [main]; the value is the exit status of the process: 0 when [main]
    returns and 1 after [log.Fatalf]. *)
Definition main : M nat :=
  args <- osArgs ;;
  if (1 <? List.length args)%nat
     && ((nth 1 args "" =? "--help") || (nth 1 args "" =? "-h"))
  then Println usage ;; ret 0
  else
    Println (bytes [240; 159; 148; 141] ++ " Reading latest commit (git show HEAD)...") ;;
    r <- git.GetLatestCommit ;;
    match r with
    | Err err => Fatalf "error: %v" [Str (Error err)] ;; ret 1
    | Ok commitText =>
        if (1 <? List.length args)%nat && (nth 1 args "" =? "--raw")
        then
          Println "----- RAW COMMIT -----" ;;
          Println commitText ;;
          ret 0
        else
          Printf (bytes [226; 156; 147] ++ " Got commit (%d characters)" ++ newline)
                 [Int (String.length commitText)] ;;
          Println (bytes [240; 159; 167; 160] ++ " Asking LM Studio to explain the commit...") ;;
          r <- llm.ExplainCommit commitText ;;
          match r with
          | Err err => Fatalf "error: %v" [Str (Error err)] ;; ret 1
          | Ok explanation =>
              Println (newline ++ bytes [240; 159; 147; 132] ++ " Explanation:") ;;
              Println explanation ;;
              ret 0
          end
    end.

End Main.

End cmd.

(* ================================================================== *)
(** * Earlier revisions carried by the repository *)
(* ================================================================== *)

Module Legacy.

(** ** The bootstrap that starts the GUI application

    The revision of [StartLMStudio] that precedes the [lms] CLI: the
    part from its entry to [cmd.Start()].  The wait on a ticker and a
    timer that follows a successful start is not modelled. *)

Inductive launched : Type :=
| Returned (err : option error)
| Waiting (argv : list string).

Definition StartLMStudio_launch : M launched :=
  up <- llm.IsRunning llm.defaultBaseURL ;;
  if up then ret (Returned None)
  else
    env <- Getenv "LM_STUDIO_CMD" ;;
    goos <- (fun w => (GOOS (host w), w)) ;;
    let envCmd := TrimSpace env in
    let chosen : error + list string :=
      if negb (envCmd =? "") then
        let parts := Fields envCmd in
        if (List.length parts =? 0)%nat then inl ErrCmdEmpty
        else inr parts
      else
        if goos =? "darwin" then inr ["open"; "-a"; "LM Studio"]
        else if goos =? "windows" then inl ErrWindows
        else inr ["lmstudio"] in
    match chosen with
    | inl e => ret (Returned (Some e))
    | inr argv =>
        err <- Start argv ;;
        match err with
        | Some e => ret (Returned (Some (ErrStartProcess e)))
        | None => ret (Waiting argv)
        end
    end.

(** ** The client of the first revision, [explainCommit] in [main.go] *)

Definition systemPromptLiteral : string :=
  lines [ "";
          "You are a senior software engineer explaining a Git commit to a teammate.";
          "";
          "Rules:";
          "- Give a short high-level summary first (1"
            ++ bytes [226; 128; 147] ++ "3 bullet points).";
          "- Then describe the main code changes grouped by concern (e.g. "
            ++ dquote ++ "API" ++ dquote ++ ", "
            ++ dquote ++ "UI" ++ dquote ++ ", "
            ++ dquote ++ "tests" ++ dquote ++ ").";
          "- Explain WHY the changes might have been made (best-effort inference).";
          "- Keep it concise but clear. No more than about 20 lines total.";
          "" ].

Section Client.

Context {lib : Library}.

Definition explainCommit (commitText : string) : M (result string) :=
  model <- Getenv "LMSTUDIO_MODEL" ;;
  if model =? "" then ret (Err ErrModelNotSet)
  else
    baseURL <- Getenv "LMSTUDIO_BASE_URL" ;;
    let baseURL := if baseURL =? "" then "http://localhost:1234/v1" else baseURL in
    apiKey <- Getenv "LMSTUDIO_API_KEY" ;;
    let apiKey := if apiKey =? "" then "lm-studio" else apiKey in
    tStr <- Getenv "EXPLAIN_TEMPERATURE" ;;
    let temp :=
      if negb (tStr =? "") then
        match ParseFloat tStr with
        | inl tParsed => tParsed
        | inr _ => 0.2%float
        end
      else 0.2%float in
    let systemPrompt := TrimSpace systemPromptLiteral in
    let userPrompt :=
      Sprintf (TrimSpace llm.userPromptLiteral) [Str commitText] in
    let reqBody :=
      {| Model := model;
         Messages := [ {| Role := "system"; Content := systemPrompt |};
                       {| Role := "user"; Content := userPrompt |} ];
         Temperature := temp |} in
    match Marshal reqBody with
    | inr err => ret (Err (ErrMarshal err))
    | inl payload =>
        let url := TrimRight baseURL "/" ++ "/chat/completions" in
        match ParseURL url with
        | Some err => ret (Err (ErrNewRequest err))
        | None =>
            let httpReq :=
              {| Method := "POST";
                 URL := url;
                 Header := [ ("Content-Type", "application/json");
                             ("Authorization", "Bearer " ++ apiKey) ];
                 Body := Some payload |} in
            r <- Do (60 * Second) httpReq ;;
            match r with
            | inr err => ret (Err (ErrRequest err))
            | inl resp =>
                if negb (StatusCode resp =? 200)%nat then
                  ret (Err (ErrAPI (StatusCode resp) (ResponseBody resp)))
                else
                  match Decode (ResponseBody resp) with
                  | inr err => ret (Err (ErrDecode err))
                  | inl chatResp =>
                      if (List.length (Choices chatResp) =? 0)%nat
                         || (Content (Message (nth 0 (Choices chatResp) zeroChoice)) =? "")
                      then ret (Err ErrMissingContent)
                      else ret (Ok (TrimSpace
                             (Content (Message (nth 0 (Choices chatResp) zeroChoice)))))
                  end
            end
        end
    end.

End Client.

End Legacy.

(* ================================================================== *)
(** * Sample hosts *)
(* ================================================================== *)

Module Sample.

(** An instance of the library functions.  [parseFloat] reads the
    unsigned decimal numerals with an optional fraction and converts
    them as [strconv] does on its exact path (a mantissa below 2^53
    divided by a power of ten up to 10^22); it rejects everything else.
    [decode] reads the bodies with no choices and the bodies with one
    choice whose message content has no escapes, written without white
    space, and rejects everything else. *)
Fixpoint decimal (s : list ascii) (mant : N) (scale : option nat)
  : option (N * nat) :=
  match s with
  | [] => Some (mant, match scale with Some k => k | None => O end)
  | c :: rest =>
      let d := N_of_ascii c in
      if Ascii.eqb c "."%char then
        match scale with
        | Some _ => None
        | None => decimal rest mant (Some O)
        end
      else if ((48 <=? d) && (d <=? 57))%N then
        decimal rest (10 * mant + (d - 48))%N
                (match scale with Some k => Some (S k) | None => None end)
      else None
  end.

Definition parseFloat (s : string) : float + string :=
  match decimal (list_ascii_of_string s) 0%N None with
  | Some (mant, k) =>
      if (s =? "") || (s =? ".") || negb (mant <? 2 ^ 53)%N || (22 <? k)%nat
      then inr "strconv.ParseFloat: parsing: invalid syntax"
      else inl (PrimFloat.div (PrimFloat.of_uint63 (Uint63.of_Z (Z.of_N mant)))
                              (PrimFloat.of_uint63 (Uint63.of_Z (10 ^ Z.of_nat k))))
  | None => inr "strconv.ParseFloat: parsing: invalid syntax"
  end.

Definition reply (content : string) : chatResponse :=
  {| Choices := [ {| Message := {| Role := ""; Content := content |} |} ] |}.

Definition q (s : string) : string := dquote ++ s ++ dquote.

Definition replyPrefix : string :=
  "{" ++ q "choices" ++ ":[{" ++ q "message" ++ ":{" ++ q "content" ++ ":" ++ dquote.

Definition replySuffix : string := dquote ++ "}}]}".

Fixpoint plain (s : list ascii) : bool :=
  match s with
  | [] => true
  | c :: rest =>
      negb (Ascii.eqb c (ascii_of_nat 34)) && negb (Ascii.eqb c (ascii_of_nat 92))
      && plain rest
  end.

Definition decode (body : string) : chatResponse + string :=
  if (body =? "{}") || (body =? "{" ++ q "choices" ++ ":[]}") then
    inl {| Choices := [] |}
  else
    match hasPrefix (list_ascii_of_string replyPrefix) (list_ascii_of_string body) with
    | Some rest =>
        match hasPrefix (rev (list_ascii_of_string replySuffix)) (rev rest) with
        | Some tnetnoc =>
            if plain tnetnoc then inl (reply (string_of_list_ascii (rev tnetnoc)))
            else inr "json: escapes are not supported"
        | None => inr "unexpected end of JSON input"
        end
    | None => inr "json: cannot unmarshal into Go value of type llm.chatResponse"
    end.

(** The body that carries [content]. *)
Definition body (content : string) : string :=
  replyPrefix ++ content ++ replySuffix.

#[export] Instance library : Library :=
  {| ParseFloat := parseFloat; Decode := decode; ParseURL := fun _ => None |}.

(** A host described by a few parameters: the environment, the
    arguments, the interaction from which the server answers the
    readiness probe, whether the [lms] CLI is installed, what [git show]
    does and what the server answers to a completion request. *)
Record Scenario : Type := {
  env : list (string * string);
  args : list string;
  goos : string;
  readyFrom : option nat;
  cli : bool;
  gitShow : Process;
  completion : Answer
}.

Definition exited (code : nat) (out err : string) : Process :=
  {| started := true; exitCode := code; stdout := out; stderr := err;
     combined := out ++ err; took := 20000000 |}.

Definition notFound : Process :=
  {| started := false; exitCode := 0; stdout := ""; stderr := "";
     combined := ""; took := 0 |}.

Definition hostOf (sc : Scenario) : Host :=
  {| environ := lookup (env sc);
     Args := args sc;
     GOOS := goos sc;
     network := fun n req =>
       if Method req =? "GET" then
         match readyFrom sc with
         | Some k =>
             if (k <=? n)%nat
             then Responds {| StatusCode := 200; ResponseBody := "{}" |} 1000000
             else Fails "connect: connection refused" 1000000
         | None => Fails "connect: connection refused" 1000000
         end
       else completion sc;
     system := fun _ argv =>
       match argv with
       | "git" :: _ => gitShow sc
       | "lms" :: "ps" :: _ =>
           if cli sc then exited 0 llm.defaultModel "" else notFound
       | "lms" :: _ => if cli sc then exited 0 "" "" else notFound
       | _ => notFound
       end;
     overslept := fun _ => 50000%N |}.

Definition boot (sc : Scenario) : World :=
  {| host := hostOf sc; now := 0; trace := [] |}.

(** A commit, and a run in which everything works: the server is up,
    the [lms] CLI is not installed, [git show] succeeds and the server
    answers the completion request. *)
Definition commit : string :=
  "commit 1a2b3c" ++ newline ++ "    Add the raw flag".

Definition served : Scenario :=
  {| env := [];
     args := ["explain-commit"];
     goos := "linux";
     readyFrom := Some 0;
     cli := false;
     gitShow := exited 0 (newline ++ commit ++ newline) "";
     completion :=
       Responds {| StatusCode := 200; ResponseBody := body " It adds a flag. " |}
                2000000000 |}.

Definition withEnv (e : list (string * string)) (sc : Scenario) : Scenario :=
  {| env := e; args := args sc; goos := goos sc; readyFrom := readyFrom sc;
     cli := cli sc; gitShow := gitShow sc; completion := completion sc |}.

Definition withArgs (a : list string) (sc : Scenario) : Scenario :=
  {| env := env sc; args := a; goos := goos sc; readyFrom := readyFrom sc;
     cli := cli sc; gitShow := gitShow sc; completion := completion sc |}.

Definition withGoos (g : string) (sc : Scenario) : Scenario :=
  {| env := env sc; args := args sc; goos := g; readyFrom := readyFrom sc;
     cli := cli sc; gitShow := gitShow sc; completion := completion sc |}.

Definition withServer (r : option nat) (c : bool) (sc : Scenario) : Scenario :=
  {| env := env sc; args := args sc; goos := goos sc; readyFrom := r;
     cli := c; gitShow := gitShow sc; completion := completion sc |}.

Definition withGit (p : Process) (sc : Scenario) : Scenario :=
  {| env := env sc; args := args sc; goos := goos sc; readyFrom := readyFrom sc;
     cli := cli sc; gitShow := p; completion := completion sc |}.

Definition withCompletion (a : Answer) (sc : Scenario) : Scenario :=
  {| env := env sc; args := args sc; goos := goos sc; readyFrom := readyFrom sc;
     cli := cli sc; gitShow := gitShow sc; completion := a |}.

End Sample.

(** A library whose [ParseFloat] also reads the special values that
    [strconv.ParseFloat] accepts: [NaN] and the infinities. *)
Module Special.

Definition parseFloat (s : string) : float + string :=
  if s =? "NaN" then inl PrimFloat.nan
  else if (s =? "Inf") || (s =? "+Inf") then inl PrimFloat.infinity
  else if s =? "-Inf" then inl PrimFloat.neg_infinity
  else Sample.parseFloat s.

Definition library : Library :=
  {| ParseFloat := parseFloat;
     Decode := Sample.decode;
     ParseURL := fun _ => None |}.

End Special.

(* ================================================================== *)
(** * Vocabulary of the statements *)
(* ================================================================== *)

(** [m] leaves the host as it is, does not turn the clock back, and
    adds to the trace only events that satisfy [P]. *)
Definition runs {A : Type} (m : M A) (P : Event -> Prop) : Prop :=
  forall w,
    host (snd (m w)) = host w
    /\ (now w <= now (snd (m w)))%N
    /\ exists evs, trace (snd (m w)) = (trace w ++ evs)%list /\ Forall P evs.

(** The requests that a trace sends to the completion endpoint, and
    their payloads. *)
Fixpoint posted (evs : list Event) : list Request :=
  match evs with
  | [] => []
  | Http req :: rest =>
      if Method req =? "POST" then req :: posted rest else posted rest
  | _ :: rest => posted rest
  end.

Fixpoint payloads (reqs : list Request) : list chatRequest :=
  match reqs with
  | [] => []
  | req :: rest =>
      match Body req with
      | Some p => p :: payloads rest
      | None => payloads rest
      end
  end.

(** The HTTP requests and the subprocesses of a trace. *)
Fixpoint requests (evs : list Event) : list Request :=
  match evs with
  | [] => []
  | Http req :: rest => req :: requests rest
  | _ :: rest => requests rest
  end.

Fixpoint commands (evs : list Event) : list (list string) :=
  match evs with
  | [] => []
  | Exec argv :: rest => argv :: commands rest
  | Spawn argv :: rest => argv :: commands rest
  | _ :: rest => commands rest
  end.

(** The text written to the standard output. *)
Fixpoint printed (evs : list Event) : string :=
  match evs with
  | [] => ""
  | Stdout text :: rest => text ++ printed rest
  | _ :: rest => printed rest
  end.

Definition notPost (e : Event) : Prop :=
  match e with
  | Http req => (Method req =? "POST") = false
  | _ => True
  end.

Definition noHttp (e : Event) : Prop :=
  match e with
  | Http _ => False
  | _ => True
  end.

Definition header (req : Request) (name : string) : string :=
  lookup (Header req) name.

(** ** The readiness probe and the polling loop *)

Definition latency (a : Answer) : N :=
  match a with
  | Fails _ after => after
  | Responds _ after => after
  end.

(** The request that [IsRunning] sends. *)
Definition endpoint (baseURL : string) : string :=
  TrimRight (if baseURL =? "" then llm.defaultBaseURL else baseURL) "/"
  ++ "/models".

Definition probe (baseURL : string) : Request :=
  {| Method := "GET"; URL := endpoint baseURL; Header := []; Body := None |}.

(** The answer is a response with status 200 that arrives within the
    timeout of the client. *)
Definition okWithin (timeout : N) (a : Answer) : bool :=
  match a with
  | Responds resp after => (after <? timeout)%N && (StatusCode resp =? 200)%nat
  | Fails _ _ => false
  end.

(** The server answers the probe sent as interaction [n]. *)
Definition reachable (h : Host) (n : nat) (baseURL : string) : bool :=
  okWithin (5 * Second) (network h n (probe baseURL)).

Definition ready : Event := Stdout ("LM Studio server is ready" ++ newline).

(** The world after a readiness probe, and after the pause that follows
    a failed one. *)
Definition probed (baseURL : string) (w : World) : World :=
  snd (llm.IsRunning baseURL w).

Definition paused (baseURL : string) (w : World) : World :=
  snd (Sleep (1 * Second) (probed baseURL w)).

(** What the loop of [waitForServer] does, read off the trace: from
    interaction [n] on it probes, pauses one second after each probe
    that finds the server unreachable, stops at the first probe that
    finds it reachable, and otherwise gives up. *)
Inductive polled (h : Host) (baseURL : string)
  : nat -> list Event -> bool -> Prop :=
| polled_giveup n : polled h baseURL n [] false
| polled_ready n :
    reachable h n baseURL = true ->
    polled h baseURL n [Http (probe baseURL); ready] true
| polled_retry n evs ok :
    reachable h n baseURL = false ->
    polled h baseURL (n + 2) evs ok ->
    polled h baseURL n (Http (probe baseURL) :: Slept (1 * Second) :: evs) ok.

Definition succeeded (err : option error) : bool :=
  match err with
  | None => true
  | Some _ => false
  end.


(** What is written to the standard error. *)
Fixpoint complaints (evs : list Event) : string :=
  match evs with
  | [] => ""
  | Stderr text :: rest => text ++ complaints rest
  | _ :: rest => complaints rest
  end.

(** The events of the bootstrap: probes of the default server, runs of
    the [lms] CLI, messages and pauses. *)
Definition bootstrapEvent (e : Event) : Prop :=
  match e with
  | Http req => req = probe llm.defaultBaseURL
  | Exec argv => nth 0 argv "" = "lms"
  | Spawn _ | Stderr _ => False
  | Stdout _ | Slept _ => True
  end.

(** ** Subprocesses *)

(** The process ends by itself, before the deadline of its context if
    it has one, with exit code 0: the case in which [Cmd.Run] and its
    variants return no error. *)
Definition exitsCleanly (ctx : option N) (p : Process) : bool :=
  started p
  && match ctx with
     | Some timeout => (took p <? timeout)%N
     | None => true
     end
  && (exitCode p =? 0)%nat.

(** The time that waiting for the process takes. *)
Definition waited (ctx : option N) (p : Process) : N :=
  if started p then
    match ctx with
    | Some timeout => N.min (took p) timeout
    | None => took p
    end
  else 0%N.

Definition gitShowArgv : list string :=
  ["git"; "show"; "--stat"; "--patch"; "HEAD"].

(** The [lms] CLI answers [lms version] at interaction [n]. *)
Definition cliAvailable (h : Host) (n : nat) : bool :=
  exitsCleanly (Some (2 * Second)%N) (system h n ["lms"; "version"]).

(** ** The request for a completion *)

Section Completion.

Context {lib : Library}.

(** The temperature in effect under the environment of [h]. *)
Definition temperature (h : Host) : float :=
  let tStr := environ h "EXPLAIN_TEMPERATURE" in
  if negb (tStr =? "") then
    match ParseFloat tStr with
    | inl tParsed => tParsed
    | inr _ => 0.2%float
    end
  else 0.2%float.

(** The request that carries [commitText] to the completion endpoint. *)
Definition completion (h : Host) (commitText : string) : Request :=
  {| Method := "POST";
     URL := "http://localhost:1234/v1/chat/completions";
     Header := [ ("Content-Type", "application/json");
                 ("Authorization", "Bearer lm-studio") ];
     Body := Some
       {| Model := "qwen/qwen3-4b-2507";
          Messages :=
            [ {| Role := "system";
                 Content := TrimSpace llm.systemPromptLiteral |};
              {| Role := "user";
                 Content := Sprintf (TrimSpace llm.userPromptLiteral)
                                    [Str commitText] |} ];
          Temperature := temperature h |} |}.

(** What the client makes of an answer to its request. *)
Definition reading (r : Response + string) : result string :=
  match r with
  | inr err => Err (ErrRequest err)
  | inl resp =>
      if negb (StatusCode resp =? 200)%nat then
        Err (ErrAPI (StatusCode resp) (ResponseBody resp))
      else
        match Decode (ResponseBody resp) with
        | inr err => Err (ErrDecode err)
        | inl chatResp =>
            match Choices chatResp with
            | [] => Err ErrMissingContent
            | first :: _ =>
                if Content (Message first) =? "" then Err ErrMissingContent
                else Ok (TrimSpace (Content (Message first)))
            end
        end
  end.

End Completion.

(** What a client with a [Timeout] hears of an answer. *)
Definition heard (Timeout : N) (a : Answer) : Response + string :=
  if (latency a <? Timeout)%N then
    match a with
    | Responds resp _ => inl resp
    | Fails why _ => inr why
    end
  else inr "context deadline exceeded (Client.Timeout exceeded while awaiting headers)".

(** ** The lines that [main] prints before the commit text *)

Definition readingLine : string :=
  bytes [240; 159; 148; 141] ++ " Reading latest commit (git show HEAD)..."
  ++ newline.


(** The arguments ask for the raw commit. *)
Definition rawFlag (h : Host) : bool :=
  (1 <? List.length (Args h))%nat && (nth 1 (Args h) "" =? "--raw").

Definition helpFlag (h : Host) : bool :=
  (1 <? List.length (Args h))%nat
  && ((nth 1 (Args h) "" =? "--help") || (nth 1 (Args h) "" =? "-h")).

(* ================================================================== *)
(** * Facts about the string functions *)
(* ================================================================== *)

Module GoStringsFacts.

Lemma hasPrefix_Some p s rest :
  hasPrefix p s = Some rest <-> s = (p ++ rest)%list.
Proof.
  revert s; induction p as [| a p IH]; intros s; simpl.
  - split; [intros [= ->] | intros ->]; reflexivity.
  - destruct s as [| b s]; [split; discriminate |].
    destruct (Ascii.eqb_spec a b) as [-> | Hab].
    + rewrite IH. split; [intros -> | intros [= ->]]; reflexivity.
    + split; [discriminate | intros [= E _]; congruence].
Qed.

Lemma hasPrefix_app p rest : hasPrefix p (p ++ rest)%list = Some rest.
Proof. apply hasPrefix_Some; reflexivity. Qed.

Lemma cutRune_Some runes s rest :
  cutRune runes s = Some rest ->
  exists r, In r runes /\ s = (r ++ rest)%list.
Proof.
  induction runes as [| r runes IH]; simpl; [discriminate |].
  destruct (hasPrefix r s) as [rest' |] eqn:E.
  - intros [= ->]. apply hasPrefix_Some in E. eauto.
  - intros H. destruct (IH H) as (r' & Hin & ->). eauto.
Qed.

Lemma cutRune_None runes s :
  cutRune runes s = None <-> ~ startsWith runes s.
Proof.
  induction runes as [| r runes IH]; simpl.
  - split; [intros _ (r & rest & [] & _) | reflexivity].
  - destruct (hasPrefix r s) as [rest |] eqn:E.
    + apply hasPrefix_Some in E.
      split; [discriminate | intros H; exfalso; apply H].
      exists r, rest; split; [left; reflexivity | assumption].
    + rewrite IH. split.
      * intros H (r' & rest & [<- | Hin] & ->).
        -- rewrite hasPrefix_app in E; discriminate.
        -- apply H. exists r', rest; auto.
      * intros H (r' & rest & Hin & ->). apply H.
        exists r', rest; split; [right; assumption | reflexivity].
Qed.

Lemma madeOf_app runes a b :
  madeOf runes a -> madeOf runes b -> madeOf runes (a ++ b)%list.
Proof.
  induction 1 as [| r s Hr Hs IH]; intros Hb; simpl; [assumption |].
  rewrite <- app_assoc. constructor; auto.
Qed.

Lemma madeOf_one runes r : In r runes -> madeOf runes r.
Proof.
  intros H. rewrite <- (app_nil_r r). constructor; [assumption | constructor].
Qed.

Lemma madeOf_rev runes s :
  madeOf (map (@rev ascii) runes) s -> madeOf runes (rev s).
Proof.
  induction 1 as [| r s Hr Hs IH]; simpl; [constructor |].
  rewrite rev_app_distr. apply madeOf_app; [assumption |].
  apply in_map_iff in Hr. destruct Hr as (r0 & <- & Hin).
  rewrite rev_involutive. apply madeOf_one; assumption.
Qed.

Section Dropping.

Variable runes : list (list ascii).
Hypothesis nonempty : Forall (fun r => r <> []) runes.

Lemma cut_shorter s rest :
  cutRune runes s = Some rest -> List.length rest < List.length s.
Proof.
  intros H. apply cutRune_Some in H. destruct H as (r & Hin & ->).
  rewrite Forall_forall in nonempty. specialize (nonempty r Hin).
  rewrite length_app. destruct r; [congruence | simpl; lia].
Qed.

Lemma dropRunes_split fuel s :
  exists l, madeOf runes l /\ s = (l ++ dropRunes runes fuel s)%list.
Proof.
  revert s; induction fuel as [| fuel IH]; intros s; simpl.
  - exists []; split; [constructor | reflexivity].
  - destruct (cutRune runes s) as [rest |] eqn:E.
    + apply cutRune_Some in E. destruct E as (r & Hin & ->).
      destruct (IH rest) as (l & Hl & El).
      exists (r ++ l)%list. split; [constructor; assumption |].
      rewrite <- app_assoc. congruence.
    + exists []; split; [constructor | reflexivity].
Qed.

Lemma dropRunes_done fuel s :
  List.length s <= fuel -> cutRune runes (dropRunes runes fuel s) = None.
Proof.
  revert s; induction fuel as [| fuel IH]; intros s Hlen; simpl.
  - destruct (cutRune runes s) as [rest |] eqn:E; [| reflexivity].
    apply cut_shorter in E. lia.
  - destruct (cutRune runes s) as [rest |] eqn:E; [| assumption].
    apply IH. apply cut_shorter in E. lia.
Qed.

(** No encoding is a proper prefix of another one. *)
Definition prefixFree : Prop :=
  forall a b x y, In a runes -> In b runes -> (a ++ x = b ++ y)%list -> a = b.

Hypothesis free : prefixFree.

Lemma cutRune_app r s : In r runes -> cutRune runes (r ++ s)%list = Some s.
Proof.
  intros Hin. destruct (cutRune runes (r ++ s)%list) as [rest |] eqn:E.
  - apply cutRune_Some in E. destruct E as (r' & Hin' & E).
    pose proof (free r r' s rest Hin Hin' E) as <-.
    apply app_inv_head in E. congruence.
  - apply cutRune_None in E. exfalso; apply E. exists r, s; auto.
Qed.

Lemma dropRunes_madeOf fuel s :
  madeOf runes s -> List.length s <= fuel -> dropRunes runes fuel s = [].
Proof.
  intros H; revert fuel; induction H as [| r s Hr Hs IH]; intros fuel Hlen.
  - destruct (dropRunes_split fuel []) as (l & _ & E).
    symmetry in E. apply app_eq_nil in E. apply E.
  - rewrite Forall_forall in nonempty. specialize (nonempty r Hr).
    rewrite length_app in Hlen.
    destruct fuel as [| fuel]; [destruct r; simpl in *; [congruence | lia] |].
    simpl. rewrite cutRune_app by assumption. apply IH.
    destruct r; simpl in *; [congruence | lia].
Qed.

End Dropping.

(** ** The white-space runes *)

Definition properPrefixb (a b : list ascii) : bool :=
  match hasPrefix a b with
  | Some (_ :: _) => true
  | _ => false
  end.

Definition prefixFreeb (runes : list (list ascii)) : bool :=
  forallb (fun a => forallb (fun b => negb (properPrefixb a b)) runes) runes.

Lemma app_eq_prefix (a b x y : list ascii) :
  (a ++ x = b ++ y)%list ->
  (exists r, b = a ++ r)%list \/ (exists r, a = b ++ r)%list.
Proof.
  revert b; induction a as [| c a IH]; intros b E.
  - left; exists b; reflexivity.
  - destruct b as [| d b]; [right; exists (c :: a); reflexivity |].
    injection E as -> E. destruct (IH _ E) as [(r & ->) | (r & ->)];
      [left | right]; exists r; reflexivity.
Qed.

Lemma prefixFreeb_sound runes : prefixFreeb runes = true -> prefixFree runes.
Proof.
  unfold prefixFreeb, prefixFree. rewrite forallb_forall.
  intros H a b x y Ha Hb E.
  assert (forall a b r, In a runes -> In b runes -> b = (a ++ r)%list -> r = [])
    as Hnil.
  { intros a' b' r Ha' Hb' ->. specialize (H a' Ha').
    rewrite forallb_forall in H. specialize (H _ Hb').
    unfold properPrefixb in H. rewrite hasPrefix_app in H.
    destruct r; [reflexivity | discriminate]. }
  destruct (app_eq_prefix _ _ _ _ E) as [(r & Er) | (r & Er)].
  - rewrite (Hnil _ _ _ Ha Hb Er), app_nil_r in Er. congruence.
  - rewrite (Hnil _ _ _ Hb Ha Er), app_nil_r in Er. congruence.
Qed.

Definition nonemptyb (runes : list (list ascii)) : bool :=
  forallb (fun r => match r with [] => false | _ :: _ => true end) runes.

Lemma nonemptyb_sound runes :
  nonemptyb runes = true -> Forall (fun r => r <> []) runes.
Proof.
  unfold nonemptyb. rewrite forallb_forall, Forall_forall.
  intros H r Hin. specialize (H r Hin). destruct r; [discriminate | congruence].
Qed.

Lemma spaceRunes_nonempty : Forall (fun r => r <> []) spaceRunes.
Proof. apply nonemptyb_sound. vm_compute. reflexivity. Qed.

Lemma spaceRunes_free : prefixFree spaceRunes.
Proof. apply prefixFreeb_sound. vm_compute. reflexivity. Qed.

Lemma spaceRunes_rev_nonempty :
  Forall (fun r => r <> []) (map (@rev ascii) spaceRunes).
Proof. apply nonemptyb_sound. vm_compute. reflexivity. Qed.

Lemma spaceRunes_rev_free : prefixFree (map (@rev ascii) spaceRunes).
Proof. apply prefixFreeb_sound. vm_compute. reflexivity. Qed.

(** ** [TrimSpace] *)

Lemma list_ascii_app a b :
  list_ascii_of_string (a ++ b) = (list_ascii_of_string a ++ list_ascii_of_string b)%list.
Proof. induction a as [| c a IH]; simpl; [reflexivity | now rewrite IH]. Qed.

Lemma string_of_app a b :
  string_of_list_ascii (a ++ b)%list = string_of_list_ascii a ++ string_of_list_ascii b.
Proof. induction a as [| c a IH]; simpl; [reflexivity | now rewrite IH]. Qed.

Lemma trimLeftRunes_spec runes s :
  Forall (fun r => r <> []) runes ->
  (exists l, madeOf runes l /\ s = (l ++ trimLeftRunes runes s)%list)
  /\ ~ startsWith runes (trimLeftRunes runes s).
Proof.
  intros Hne. unfold trimLeftRunes. split.
  - apply dropRunes_split.
  - apply cutRune_None. apply dropRunes_done; [assumption | lia].
Qed.

Lemma trimRightRunes_spec runes s :
  Forall (fun r => r <> []) runes ->
  (exists r, madeOf runes r /\ s = (trimRightRunes runes s ++ r)%list)
  /\ ~ endsWith runes (trimRightRunes runes s).
Proof.
  intros Hne. unfold trimRightRunes.
  assert (Forall (fun r => r <> []) (map (@rev ascii) runes)) as Hne'.
  { rewrite Forall_forall in *. intros r' Hin.
    apply in_map_iff in Hin. destruct Hin as (r & <- & Hin).
    specialize (Hne r Hin). destruct r; [congruence |].
    simpl. intros E. apply app_eq_nil in E. destruct E; discriminate. }
  destruct (trimLeftRunes_spec (map (@rev ascii) runes) (rev s) Hne') as [(l & Hl & El) Hstart].
  split.
  - exists (rev l). split; [apply madeOf_rev; assumption |].
    rewrite <- rev_app_distr, <- El, rev_involutive. reflexivity.
  - intros (r & front & Hin & E). apply Hstart.
    exists (rev r), (rev front). split; [apply in_map; assumption |].
    rewrite <- rev_app_distr, <- E, rev_involutive. reflexivity.
Qed.

(** [TrimSpace s] is [s] trimmed. *)
Theorem TrimSpace_Trimmed s : Trimmed s (TrimSpace s).
Proof.
  unfold Trimmed, TrimSpace, trimSpaceBytes, WhiteSpace.
  set (b := list_ascii_of_string s).
  destruct (trimLeftRunes_spec spaceRunes b spaceRunes_nonempty) as [(l & Hl & El) Hstart].
  set (u := trimLeftRunes spaceRunes b) in *.
  destruct (trimRightRunes_spec spaceRunes u spaceRunes_nonempty) as [(r & Hr & Er) Hend].
  set (t := trimRightRunes spaceRunes u) in *.
  rewrite list_ascii_of_string_of_list_ascii.
  split; [| split].
  - exists (string_of_list_ascii l), (string_of_list_ascii r).
    rewrite !list_ascii_of_string_of_list_ascii.
    split; [assumption | split; [assumption |]].
    rewrite <- !string_of_app, <- Er, <- El.
    symmetry. apply string_of_list_ascii_of_string.
  - intros (e & rest & Hin & E). apply Hstart.
    exists e, (rest ++ r)%list. split; [assumption |].
    rewrite Er, E, app_assoc. reflexivity.
  - assumption.
Qed.

(** [TrimSpace s] is empty exactly when [s] is white space. *)
Theorem TrimSpace_empty s : TrimSpace s = "" <-> WhiteSpace s.
Proof.
  split.
  - intros E. destruct (TrimSpace_Trimmed s) as [(l & r & Hl & Hr & Es) _].
    rewrite E in Es. simpl in Es. unfold WhiteSpace in *.
    rewrite Es, list_ascii_app. apply madeOf_app; assumption.
  - intros H. unfold TrimSpace, trimSpaceBytes, WhiteSpace in *.
    unfold trimLeftRunes.
    rewrite (dropRunes_madeOf spaceRunes spaceRunes_nonempty spaceRunes_free _ _ H) by lia.
    reflexivity.
Qed.

(** A trimmed string is not changed by trimming. *)
Lemma TrimSpace_fixed t :
  ~ startsWith spaceRunes (list_ascii_of_string t) ->
  ~ endsWith spaceRunes (list_ascii_of_string t) ->
  TrimSpace t = t.
Proof.
  intros Hstart Hend. unfold TrimSpace, trimSpaceBytes.
  set (b := list_ascii_of_string t) in *.
  assert (trimLeftRunes spaceRunes b = b) as ->.
  { unfold trimLeftRunes. apply cutRune_None in Hstart.
    destruct (List.length b); [reflexivity |].
    cbn [dropRunes]. rewrite Hstart. reflexivity. }
  assert (trimRightRunes spaceRunes b = b) as ->.
  { unfold trimRightRunes, trimLeftRunes.
    assert (cutRune (map (@rev ascii) spaceRunes) (rev b) = None) as Hcut.
    { apply cutRune_None. intros (r' & rest & Hin & E). apply Hend.
      apply in_map_iff in Hin. destruct Hin as (r & <- & Hin).
      exists r, (rev rest). split; [assumption |].
      rewrite <- (rev_involutive b), E, rev_app_distr, rev_involutive.
      reflexivity. }
    destruct (List.length (rev b)); [apply rev_involutive |].
    cbn [dropRunes]. rewrite Hcut. apply rev_involutive. }
  apply string_of_list_ascii_of_string.
Qed.

Theorem TrimSpace_idempotent s : TrimSpace (TrimSpace s) = TrimSpace s.
Proof.
  destruct (TrimSpace_Trimmed s) as (_ & Hstart & Hend).
  apply TrimSpace_fixed; assumption.
Qed.

End GoStringsFacts.
Import GoStringsFacts.

(* ================================================================== *)
(** * Facts about the effects *)
(* ================================================================== *)

Module EffectsFacts.

Lemma effects_app {A} (m : M A) w evs :
  trace (snd (m w)) = (trace w ++ evs)%list -> effects m w = evs.
Proof.
  intros E. unfold effects, tick. rewrite E.
  rewrite skipn_app, skipn_all, Nat.sub_diag. reflexivity.
Qed.

Lemma tick_step d e w : tick (step d e w) = S (tick w).
Proof. unfold tick, step; simpl. rewrite length_app; simpl. lia. Qed.

Lemma bind_eq {A B} (m : M A) (k : A -> M B) w :
  bind m k w = k (fst (m w)) (snd (m w)).
Proof. unfold bind. destruct (m w); reflexivity. Qed.

Lemma Getenv_eq key w : Getenv key w = (environ (host w) key, w).
Proof. reflexivity. Qed.

(** ** Programs that only add to the trace *)

Lemma runs_weaken {A} (m : M A) (P Q : Event -> Prop) :
  (forall e, P e -> Q e) -> runs m P -> runs m Q.
Proof.
  intros HPQ H w. destruct (H w) as (Hh & Hn & evs & Et & Hall).
  repeat split; try assumption. exists evs. split; [assumption |].
  eapply Forall_impl; eassumption.
Qed.

Lemma runs_trace {A} (m : M A) P w :
  runs m P -> trace (snd (m w)) = (trace w ++ effects m w)%list.
Proof.
  intros H. destruct (H w) as (_ & _ & evs & Et & _).
  rewrite (effects_app m w evs Et). exact Et.
Qed.

Lemma runs_Forall {A} (m : M A) P w : runs m P -> Forall P (effects m w).
Proof.
  intros H. destruct (H w) as (_ & _ & evs & Et & Hall).
  rewrite (effects_app m w evs Et). exact Hall.
Qed.

Lemma runs_host {A} (m : M A) P w : runs m P -> host (snd (m w)) = host w.
Proof. intros H. apply (H w). Qed.


Lemma runs_tick {A} (m : M A) P w :
  runs m P -> tick (snd (m w)) = tick w + List.length (effects m w).
Proof.
  intros H. unfold tick at 1 2. rewrite (runs_trace m P w H), length_app.
  reflexivity.
Qed.

Lemma runs_ret {A} (a : A) P : runs (ret a) P.
Proof.
  intros w; simpl. repeat split; [lia |].
  exists []. rewrite app_nil_r. auto.
Qed.

Lemma runs_bind {A B} (m : M A) (k : A -> M B) P :
  runs m P -> (forall a, runs (k a) P) -> runs (bind m k) P.
Proof.
  intros Hm Hk w. unfold bind.
  specialize (Hm w). destruct (m w) as [a w1]. simpl in Hm.
  destruct Hm as (Hh & Hn & evs & Et & Hall).
  destruct (Hk a w1) as (Hh' & Hn' & evs' & Et' & Hall').
  repeat split.
  - congruence.
  - lia.
  - exists (evs ++ evs')%list. split; [| apply Forall_app; auto].
    rewrite Et', Et, app_assoc. reflexivity.
Qed.

Lemma runs_read {A} (f : World -> A) P : runs (fun w => (f w, w)) P.
Proof.
  intros w; simpl. repeat split; [lia |].
  exists []. rewrite app_nil_r. auto.
Qed.

Lemma runs_step {A} (f : World -> A) (d : World -> N) e P :
  P e -> runs (fun w => (f w, step (d w) e w)) P.
Proof.
  intros He w; simpl. repeat split; [lia |].
  exists [e]. auto.
Qed.

Lemma runs_Println s P : P (Stdout (s ++ newline)) -> runs (Println s) P.
Proof. intros H. apply (runs_step (fun _ => tt) (fun _ => 0%N)). exact H. Qed.

Lemma runs_Printf f a P : P (Stdout (Sprintf f a)) -> runs (Printf f a) P.
Proof. intros H. apply (runs_step (fun _ => tt) (fun _ => 0%N)). exact H. Qed.

Lemma runs_Fatalf f a P :
  P (Stderr (Sprintf f a ++ newline)) -> runs (Fatalf f a) P.
Proof. intros H. apply (runs_step (fun _ => tt) (fun _ => 0%N)). exact H. Qed.

Lemma runs_Sleep d P : P (Slept d) -> runs (Sleep d) P.
Proof.
  intros H. apply (runs_step (fun _ => tt)
                             (fun w => (d + overslept (host w) (tick w))%N)).
  exact H.
Qed.

Lemma runs_Getenv key P : runs (Getenv key) P.
Proof. apply runs_read. Qed.

Lemma runs_Now P : runs Now P.
Proof. apply runs_read. Qed.

Lemma runs_Do Timeout req P : P (Http req) -> runs (Do Timeout req) P.
Proof.
  intros H w. unfold Do.
  destruct (network (host w) (tick w) req) as [why after | resp after];
    destruct (after <? Timeout)%N; simpl;
    (repeat split; [lia | exists [Http req]; auto]).
Qed.

Lemma runs_wait ctx argv P : P (Exec argv) -> runs (wait ctx argv) P.
Proof.
  intros H w. unfold wait.
  destruct (started (system (host w) (tick w) argv)); simpl;
    [destruct ctx as [timeout |];
     [destruct (took _ <? timeout)%N |] |]; simpl;
    (repeat split; [lia | exists [Exec argv]; auto]).
Qed.

Lemma runs_Run ctx argv P : P (Exec argv) -> runs (Run ctx argv) P.
Proof.
  intros H. apply runs_bind; [apply runs_wait; exact H |].
  intros r. apply runs_ret.
Qed.

Lemma runs_Output ctx forward argv P :
  P (Exec argv) -> (forall text, P (Stderr text)) ->
  runs (Output ctx forward argv) P.
Proof.
  intros H Herr. apply runs_bind; [apply runs_wait; exact H |].
  intros r. apply runs_bind; [| intros; apply runs_ret].
  destruct (forward && negb (stderr (fst r) =? ""));
    [apply (runs_step (fun _ => tt) (fun _ => 0%N)); apply Herr | apply runs_ret].
Qed.

Lemma runs_Output_quiet ctx argv P :
  P (Exec argv) -> runs (Output ctx false argv) P.
Proof.
  intros H. apply runs_bind; [apply runs_wait; exact H |].
  intros r. apply runs_bind; [| intros; apply runs_ret].
  cbn [andb]. apply runs_ret.
Qed.

Lemma runs_CombinedOutput ctx argv P :
  P (Exec argv) -> runs (CombinedOutput ctx argv) P.
Proof.
  intros H. apply runs_bind; [apply runs_wait; exact H |].
  intros r. apply runs_ret.
Qed.

Lemma runs_Start argv P : P (Spawn argv) -> runs (Start argv) P.
Proof.
  intros H. apply (runs_step
    (fun w => if started (system (host w) (tick w) argv) then None
              else Some "executable file not found in $PATH")
    (fun _ => 0%N)).
  exact H.
Qed.

(** ** The events of a sequence *)

Lemma effects_ret {A} (a : A) w : effects (ret a) w = [].
Proof. apply effects_app. simpl. rewrite app_nil_r. reflexivity. Qed.

Lemma effects_bind {A B} (m : M A) (k : A -> M B) P w :
  runs m P -> (forall a, runs (k a) P) ->
  effects (bind m k) w
  = (effects m w ++ effects (k (fst (m w))) (snd (m w)))%list.
Proof.
  intros Hm Hk. apply effects_app. rewrite bind_eq.
  rewrite (runs_trace (k (fst (m w))) P (snd (m w)) (Hk _)).
  rewrite (runs_trace m P w Hm), app_assoc. reflexivity.
Qed.

Lemma effects_step {A} (f : World -> A) (d : World -> N) e w :
  effects (fun w => (f w, step (d w) e w)) w = [e].
Proof. apply effects_app. reflexivity. Qed.

(** ** Reading a trace *)

Lemma append_nil_r s : s ++ "" = s.
Proof. induction s as [| a s IH]; [reflexivity | cbn; now rewrite IH]. Qed.


Lemma posted_app evs evs' :
  posted (evs ++ evs') = (posted evs ++ posted evs')%list.
Proof.
  induction evs as [| e evs IH]; [reflexivity |].
  destruct e; simpl; try assumption.
  destruct (Method req =? "POST"); simpl; congruence.
Qed.

Lemma posted_notPost evs : Forall notPost evs -> posted evs = [].
Proof.
  induction 1 as [| e evs He _ IH]; [reflexivity |].
  destruct e; simpl in *; try assumption. rewrite He. assumption.
Qed.

Lemma noHttp_notPost e : noHttp e -> notPost e.
Proof. destruct e; simpl; tauto. Qed.

Lemma requests_noHttp evs : Forall noHttp evs -> requests evs = [].
Proof.
  induction 1 as [| e evs He _ IH]; [reflexivity |].
  destruct e; simpl in *; tauto.
Qed.



End EffectsFacts.

(* ================================================================== *)
(** * Facts about the client *)
(* ================================================================== *)

Module ClientFacts.

Import EffectsFacts.

Ltac event_tac := first [exact I | reflexivity | assumption].

Ltac runs_step_tac :=
  match goal with
  | |- runs (bind _ _) _ => apply runs_bind; [| intros ?]
  | |- runs (ret _) _ => apply runs_ret
  | |- runs (Println _) _ => apply runs_Println; event_tac
  | |- runs (Printf _ _) _ => apply runs_Printf; event_tac
  | |- runs (Fatalf _ _) _ => apply runs_Fatalf; event_tac
  | |- runs (Sleep _) _ => apply runs_Sleep; event_tac
  | |- runs (Getenv _) _ => apply runs_Getenv
  | |- runs Now _ => apply runs_Now
  | |- runs (Run _ _) _ => apply runs_Run; event_tac
  | |- runs (Output _ false _) _ => apply runs_Output_quiet; event_tac
  | |- runs (Output _ _ _) _ =>
      apply runs_Output; [event_tac | intros ?; event_tac]
  | |- runs (CombinedOutput _ _) _ => apply runs_CombinedOutput; event_tac
  | |- runs (Start _) _ => apply runs_Start; event_tac
  | |- runs (Get _ _) _ => apply runs_Do; event_tac
  | |- runs (Do _ _) _ => apply runs_Do; event_tac
  | |- runs (match ?x with _ => _ end) _ => destruct x
  | |- runs (if ?x then _ else _) _ => destruct x
  end.

Ltac runs_tac := repeat runs_step_tac.

Lemma bootstrapEvent_notPost e : bootstrapEvent e -> notPost e.
Proof.
  destruct e; simpl; try tauto. intros ->. reflexivity.
Qed.

(** ** Subprocesses *)

Lemma wait_eq ctx argv w :
  let p := system (host w) (tick w) argv in
  snd (wait ctx argv w) = step (waited ctx p) (Exec argv) w
  /\ fst (fst (wait ctx argv w)) = p
  /\ (snd (fst (wait ctx argv w)) = None <-> exitsCleanly ctx p = true).
Proof.
  cbv zeta. unfold wait, waited, exitsCleanly.
  destruct (started (system (host w) (tick w) argv)); cbn [negb andb fst snd];
    [| repeat split; intros; discriminate].
  destruct ctx as [timeout |].
  - destruct (N.ltb_spec (took (system (host w) (tick w) argv)) timeout).
    + rewrite N.min_l by lia.
      destruct (exitCode _ =? 0)%nat; cbn [fst snd andb];
        repeat split; intros; congruence.
    + rewrite N.min_r by lia. cbn [fst snd andb].
      repeat split; intros; discriminate.
  - destruct (exitCode _ =? 0)%nat; cbn [fst snd andb];
      repeat split; intros; congruence.
Qed.

Lemma Run_ok ctx argv w :
  fst (Run ctx argv w) = None
  <-> exitsCleanly ctx (system (host w) (tick w) argv) = true.
Proof.
  unfold Run. rewrite bind_eq. cbn [ret fst].
  apply (wait_eq ctx argv w).
Qed.

Lemma Run_effects ctx argv w : effects (Run ctx argv) w = [Exec argv].
Proof.
  apply effects_app. unfold Run. rewrite bind_eq. cbn [ret snd].
  destruct (wait_eq ctx argv w) as (E & _). rewrite E. reflexivity.
Qed.

Lemma Output_fst ctx forward argv w :
  fst (Output ctx forward argv w)
  = (stdout (system (host w) (tick w) argv), snd (fst (wait ctx argv w))).
Proof.
  unfold Output. rewrite !bind_eq. cbn [ret fst].
  destruct (wait_eq ctx argv w) as (_ & Ep & _). rewrite Ep. reflexivity.
Qed.

Lemma CombinedOutput_eq ctx argv w :
  CombinedOutput ctx argv w
  = ((combined (system (host w) (tick w) argv), snd (fst (wait ctx argv w))),
     step (waited ctx (system (host w) (tick w) argv)) (Exec argv) w).
Proof.
  unfold CombinedOutput. rewrite bind_eq. cbn [ret].
  destruct (wait_eq ctx argv w) as (Es & Ep & _). rewrite Es, Ep. reflexivity.
Qed.

(** ** Requests *)

Lemma Do_eq Timeout req w :
  Do Timeout req w
  = (heard Timeout (network (host w) (tick w) req),
     step (N.min (latency (network (host w) (tick w) req)) Timeout) (Http req) w).
Proof.
  unfold Do, heard.
  destruct (network (host w) (tick w) req) as [why after | resp after];
    cbn [latency]; destruct (N.ltb_spec after Timeout);
    [rewrite N.min_l by lia | rewrite N.min_r by lia
    |rewrite N.min_l by lia | rewrite N.min_r by lia]; reflexivity.
Qed.

(** ** The commit reader *)

Lemma GetLatestCommit_runs : runs git.GetLatestCommit noHttp.
Proof. unfold git.GetLatestCommit. runs_tac. Qed.

Lemma GetLatestCommit_effects w :
  effects git.GetLatestCommit w
  = Exec gitShowArgv
      :: (if negb (stderr (system (host w) (tick w) gitShowArgv) =? "")
          then [Stderr (stderr (system (host w) (tick w) gitShowArgv))]
          else []).
Proof.
  apply effects_app. unfold git.GetLatestCommit, Output. fold gitShowArgv.
  rewrite !bind_eq. cbn [ret fst snd].
  destruct (wait_eq None gitShowArgv w) as (Es & Ep & _).
  assert (Ew : forall (b : bool) (m : M (result string)) (m' : M (result string)) w',
             (forall w'', snd (m w'') = w'') -> (forall w'', snd (m' w'') = w'') ->
             snd ((if b then m else m') w') = w').
  { intros [] m m' w' H H'; auto. }
  destruct (snd (fst (wait None gitShowArgv w))) as [err |];
    [| rewrite Ew by reflexivity]; cbn [ret snd]; rewrite Ep, Es;
    cbn [andb]; destruct (negb _); cbn [ret snd step trace];
    rewrite <- ?app_assoc; reflexivity.
Qed.

(** ** The readiness check *)

Lemma IsRunning_eq baseURL w :
  llm.IsRunning baseURL w
  = (reachable (host w) (tick w) baseURL,
     step (N.min (latency (network (host w) (tick w) (probe baseURL))) (5 * Second))
          (Http (probe baseURL)) w).
Proof.
  unfold llm.IsRunning, reachable, okWithin, Get, Do, bind, ret.
  fold (endpoint baseURL). fold (probe baseURL).
  destruct (network (host w) (tick w) (probe baseURL)) as [why after | resp after];
    cbn [latency]; destruct (N.ltb_spec after (5 * Second)) as [Hlt | Hge];
    [rewrite N.min_l by lia | rewrite N.min_r by lia
    |rewrite N.min_l by lia | rewrite N.min_r by lia]; reflexivity.
Qed.

Lemma IsRunning_effects baseURL w :
  effects (llm.IsRunning baseURL) w = [Http (probe baseURL)].
Proof. apply effects_app. rewrite IsRunning_eq. reflexivity. Qed.

Lemma IsRunning_runs baseURL (P : Event -> Prop) :
  P (Http (probe baseURL)) -> runs (llm.IsRunning baseURL) P.
Proof.
  intros H w. rewrite IsRunning_eq. cbn [snd step host now trace].
  repeat split; [lia | exists [Http (probe baseURL)]; auto].
Qed.

Lemma IsRunning_fst baseURL w :
  fst (llm.IsRunning baseURL w) = reachable (host w) (tick w) baseURL.
Proof. rewrite IsRunning_eq. reflexivity. Qed.

(** A cutset byte that is not the last byte of the string trims nothing. *)
Lemma TrimRight_keeps s c :
  c <> "/"%char -> TrimRight (s ++ String c "") "/" = s ++ String c "".
Proof.
  intros Hc. unfold TrimRight, trimRightRunes, trimLeftRunes.
  rewrite list_ascii_app. cbn [list_ascii_of_string map].
  rewrite rev_app_distr. cbn [rev app List.length dropRunes cutRune hasPrefix].
  destruct (Ascii.eqb_spec "/"%char c) as [E | _]; [congruence |].
  change (c :: rev (list_ascii_of_string s))
    with (rev [c] ++ rev (list_ascii_of_string s))%list.
  rewrite <- rev_app_distr, rev_involutive.
  change [c] with (list_ascii_of_string (String c "")).
  rewrite <- list_ascii_app. apply string_of_list_ascii_of_string.
Qed.

(** ** The [lms] CLI *)

Lemma isLMSCLIAvailable_eq w :
  llm.isLMSCLIAvailable w
  = (cliAvailable (host w) (tick w),
     step (waited (Some (2 * Second)%N) (system (host w) (tick w) ["lms"; "version"]))
          (Exec ["lms"; "version"]) w).
Proof.
  unfold llm.isLMSCLIAvailable, Run, cliAvailable. rewrite !bind_eq. cbn [ret fst snd].
  destruct (wait_eq (Some (2 * Second)%N) ["lms"; "version"] w) as (Es & _ & Ee).
  rewrite Es. f_equal.
  destruct (snd (fst (wait _ _ w))) as [err |];
    destruct (exitsCleanly _ _); try reflexivity.
  - destruct Ee as [_ Ee]. discriminate (Ee eq_refl).
  - destruct Ee as [Ee _]. discriminate (Ee eq_refl).
Qed.

Lemma isLMSCLIAvailable_runs : runs llm.isLMSCLIAvailable bootstrapEvent.
Proof. unfold llm.isLMSCLIAvailable. runs_tac. Qed.

Lemma isModelLoaded_runs modelID : runs (llm.isModelLoaded modelID) bootstrapEvent.
Proof. unfold llm.isModelLoaded. runs_tac. Qed.

Lemma loadModel_runs modelID : runs (llm.loadModel modelID) bootstrapEvent.
Proof. unfold llm.loadModel. runs_tac. Qed.

Lemma startServerWithCLI_runs : runs llm.startServerWithCLI bootstrapEvent.
Proof. unfold llm.startServerWithCLI. runs_tac. Qed.

Lemma startServerWithCLI_trace w :
  trace (snd (llm.startServerWithCLI w))
  = (trace w ++ [ Stdout ("Starting LM Studio server with `lms server start`..." ++ newline);
                  Exec ["lms"; "server"; "start"] ])%list.
Proof.
  unfold llm.startServerWithCLI. rewrite bind_eq. unfold Println at 1. cbn [fst snd].
  rewrite bind_eq, CombinedOutput_eq. cbn [fst snd].
  destruct (snd (fst (wait _ _ _))); cbn [ret snd step trace];
    rewrite <- app_assoc; reflexivity.
Qed.

(** ** The polling loop *)

(** Induction along the iterations of the loop. *)
Lemma waitLoop_rule baseURL deadline (Q : World -> option error * World -> Prop) :
  (forall w, (deadline <= now w)%N -> Q w (Some (ErrWaitTimeout baseURL), w)) ->
  (forall w, (now w < deadline)%N ->
             reachable (host w) (tick w) baseURL = true ->
             Q w (None, step 0 ready (probed baseURL w))) ->
  (forall w r, (now w < deadline)%N ->
               reachable (host w) (tick w) baseURL = false ->
               Q (paused baseURL w) r -> Q w r) ->
  forall w, Q w (llm.waitLoop baseURL deadline w).
Proof.
  intros Hstop Hready Hretry w.
  funelim (llm.waitLoop baseURL deadline w).
  - apply Hstop. apply N.ltb_ge. assumption.
  - match goal with E : llm.IsRunning _ _ = _ |- _ =>
      pose proof E as E'; rewrite IsRunning_eq in E'; injection E' as Hr Hw
    end.
    replace w1 with (probed baseURL w) by (unfold probed; now rewrite e0).
    apply Hready; [apply N.ltb_lt; assumption | assumption].
  - match goal with E : llm.IsRunning _ _ = _ |- _ =>
      pose proof E as E'; rewrite IsRunning_eq in E'; injection E' as Hr Hw
    end.
    apply Hretry; [apply N.ltb_lt; assumption | assumption |].
    unfold paused, probed. rewrite e0. change (snd (false, w1)) with w1.
    match goal with IH : forall Q, _ |- _ => apply IH; assumption end.
Qed.

Lemma probed_facts baseURL w :
  host (probed baseURL w) = host w
  /\ trace (probed baseURL w) = (trace w ++ [Http (probe baseURL)])%list
  /\ (now w <= now (probed baseURL w) <= now w + 5 * Second)%N.
Proof.
  unfold probed. rewrite IsRunning_eq. cbn [snd step host now trace].
  pose proof (N.le_min_r (latency (network (host w) (tick w) (probe baseURL)))
                         (5 * Second)).
  repeat split; lia.
Qed.

Lemma paused_facts baseURL w :
  host (paused baseURL w) = host w
  /\ trace (paused baseURL w)
     = (trace w ++ [Http (probe baseURL); Slept (1 * Second)])%list
  /\ (now w + 1 * Second <= now (paused baseURL w)
      <= now w + 6 * Second + overslept (host w) (S (tick w)))%N.
Proof.
  unfold paused, probed. rewrite IsRunning_eq.
  unfold Sleep. cbn [snd]. rewrite tick_step. cbn [step host now trace].
  rewrite <- app_assoc.
  pose proof (N.le_min_r (latency (network (host w) (tick w) (probe baseURL)))
                         (5 * Second)).
  repeat split; try reflexivity; unfold Second in *; lia.
Qed.

Lemma remaining_decreases deadline w w1 :
  (now w < deadline)%N -> (now w + 1 * Second <= now w1)%N ->
  llm.remaining deadline w1 < llm.remaining deadline w.
Proof.
  intros Hlt Hle. unfold llm.remaining, Second in *.
  zify. Z.div_mod_to_equations. lia.
Qed.

Lemma polled_Forall h baseURL n evs ok (P : Event -> Prop) :
  P (Http (probe baseURL)) -> P (Slept (1 * Second)) -> P ready ->
  polled h baseURL n evs ok -> Forall P evs.
Proof.
  intros H1 H2 H3. induction 1; repeat constructor; assumption.
Qed.

(** The loop, from any world. *)
Lemma waitLoop_spec baseURL deadline w :
  let r := llm.waitLoop baseURL deadline w in
  host (snd r) = host w
  /\ (now w <= now (snd r))%N
  /\ exists evs,
       trace (snd r) = (trace w ++ evs)%list
       /\ polled (host w) baseURL (tick w) evs (succeeded (fst r))
       /\ List.length (requests evs) <= llm.remaining deadline w
       /\ (fst r = None
           \/ fst r = Some (ErrWaitTimeout baseURL) /\ (deadline <= now (snd r))%N)
       /\ forall J, (forall n, overslept (host w) n <= J)%N ->
             (now (snd r) = now w \/ now (snd r) < deadline + 6 * Second + J)%N.
Proof.
  apply (waitLoop_rule baseURL deadline
    (fun w r =>
       host (snd r) = host w
       /\ (now w <= now (snd r))%N
       /\ exists evs,
            trace (snd r) = (trace w ++ evs)%list
            /\ polled (host w) baseURL (tick w) evs (succeeded (fst r))
            /\ List.length (requests evs) <= llm.remaining deadline w
            /\ (fst r = None
                \/ fst r = Some (ErrWaitTimeout baseURL) /\ (deadline <= now (snd r))%N)
            /\ forall J, (forall n, overslept (host w) n <= J)%N ->
                  (now (snd r) = now w \/ now (snd r) < deadline + 6 * Second + J)%N));
    clear w.
  - intros w Hge. cbn [fst snd succeeded]. split; [reflexivity |].
    split; [lia |].
    exists []. rewrite app_nil_r.
    repeat split; [constructor | simpl; lia | right; split; [reflexivity | assumption]
                  | intros; left; reflexivity].
  - intros w Hlt Hup.
    destruct (probed_facts baseURL w) as (Hh & Ht & Hn).
    cbn [fst snd step host trace now succeeded]. split; [assumption |].
    split; [lia |].
    exists [Http (probe baseURL); ready]. rewrite Ht, <- app_assoc.
    repeat split; [constructor; assumption | | left; reflexivity
                  | intros; right; unfold Second in *; lia].
    unfold ready. cbn [requests List.length].
    pose proof (remaining_decreases deadline w (paused baseURL w) Hlt
                  (proj1 (proj2 (proj2 (paused_facts baseURL w))))). lia.
  - intros w [r w'] Hlt Hdown (Hh' & Hmono & evs & Ht' & Hp & Hlen & Hres & Htime).
    destruct (paused_facts baseURL w) as (Hh & Ht & Hn).
    cbn [fst snd] in *. split; [congruence |].
    split; [unfold Second in *; lia |].
    exists (Http (probe baseURL) :: Slept (1 * Second) :: evs).
    repeat split.
    + rewrite Ht', Ht, <- app_assoc. reflexivity.
    + constructor; [assumption |].
      rewrite Hh in Hp. unfold tick in *. rewrite Ht, length_app in Hp.
      exact Hp.
    + pose proof (remaining_decreases deadline w (paused baseURL w) Hlt (proj1 Hn)).
      cbn [requests List.length]. lia.
    + assumption.
    + intros J HJ. rewrite Hh in Htime.
      destruct (Htime J HJ) as [E | E];
        specialize (HJ (S (tick w))); right; unfold Second in *; lia.
Qed.

Lemma waitLoop_runs baseURL deadline (P : Event -> Prop) :
  P (Http (probe baseURL)) -> P (Slept (1 * Second)) -> P ready ->
  runs (llm.waitLoop baseURL deadline) P.
Proof.
  intros H1 H2 H3 w.
  destruct (waitLoop_spec baseURL deadline w) as (Hh & Hn & evs & Ht & Hp & _).
  repeat split; try assumption.
  exists evs. split; [assumption |]. eapply polled_Forall; eassumption.
Qed.

Lemma waitForServer_runs baseURL timeout (P : Event -> Prop) :
  P (Stdout ("Waiting for LM Studio server..." ++ newline)) ->
  P (Http (probe baseURL)) -> P (Slept (1 * Second)) -> P ready ->
  runs (llm.waitForServer baseURL timeout) P.
Proof.
  intros H0 H1 H2 H3. unfold llm.waitForServer. runs_tac.
  apply waitLoop_runs; assumption.
Qed.

(** ** The bootstrap *)

Ltac bootstrap_tac :=
  repeat first
    [ apply IsRunning_runs; reflexivity
    | apply isLMSCLIAvailable_runs
    | apply isModelLoaded_runs | apply loadModel_runs
    | apply startServerWithCLI_runs
    | apply waitForServer_runs; event_tac
    | runs_step_tac ].

Lemma StartLMStudio_runs : runs llm.StartLMStudio bootstrapEvent.
Proof. unfold llm.StartLMStudio. bootstrap_tac. Qed.

Lemma StartLMStudio_notPost : runs llm.StartLMStudio notPost.
Proof.
  apply (runs_weaken _ bootstrapEvent);
    [apply bootstrapEvent_notPost | apply StartLMStudio_runs].
Qed.

(** ** The request for a completion *)

Section Completion.

Context {lib : Library}.

Lemma reading_eq (r : Response + string) :
  match r with
  | inr err => Err (ErrRequest err)
  | inl resp =>
      if negb (StatusCode resp =? 200)%nat then
        Err (ErrAPI (StatusCode resp) (ResponseBody resp))
      else
        match Decode (ResponseBody resp) with
        | inr err => Err (ErrDecode err)
        | inl chatResp =>
            if (List.length (Choices chatResp) =? 0)%nat
               || (Content (Message (nth 0 (Choices chatResp) zeroChoice)) =? "")
            then Err ErrMissingContent
            else Ok (TrimSpace
                   (Content (Message (nth 0 (Choices chatResp) zeroChoice))))
        end
  end = reading r.
Proof.
  unfold reading. destruct r as [resp | err]; [| reflexivity].
  destruct (negb _); [reflexivity |].
  destruct (Decode _) as [chatResp | err]; [| reflexivity].
  destruct (Choices chatResp) as [| first rest]; reflexivity.
Qed.

(** [ExplainCommit], stage by stage. *)
Lemma ExplainCommit_eq commitText w :
  llm.ExplainCommit commitText w
  = match llm.StartLMStudio w with
    | (Some e, w1) => (Err e, w1)
    | (None, w1) =>
        if PrimFloat.is_finite (temperature (host w)) then
          (reading (heard (60 * Second)
                          (network (host w) (tick w1) (completion (host w) commitText))),
           step (N.min (latency (network (host w) (tick w1)
                                         (completion (host w) commitText)))
                       (60 * Second))
                (Http (completion (host w) commitText)) w1)
        else (Err (ErrMarshal "json: unsupported value"), w1)
    end.
Proof.
  pose proof (runs_host _ _ w StartLMStudio_notPost) as Hh.
  unfold llm.ExplainCommit. unfold bind at 1.
  destruct (llm.StartLMStudio w) as [[e |] w1]; [reflexivity |].
  cbn [snd] in Hh. unfold bind at 1. unfold Getenv at 1. cbv iota beta.
  change (if negb (environ (host w1) "EXPLAIN_TEMPERATURE" =? "")
          then match ParseFloat (environ (host w1) "EXPLAIN_TEMPERATURE") with
               | inl tParsed => tParsed
               | inr _ => 0.2%float
               end
          else 0.2%float) with (temperature (host w1)).
  unfold Marshal. cbn [Temperature]. rewrite Hh.
  destruct (PrimFloat.is_finite (temperature (host w))); [| reflexivity].
  unfold bind. rewrite Do_eq, Hh.
  change {| Method := "POST";
            URL := TrimRight llm.defaultBaseURL "/" ++ "/chat/completions";
            Header := [("Content-Type", "application/json");
                       ("Authorization", "Bearer " ++ llm.defaultAPIKey)];
            Body := Some {| Model := llm.defaultModel;
                            Messages := [ {| Role := "system";
                                             Content := TrimSpace llm.systemPromptLiteral |};
                                          {| Role := "user";
                                             Content := Sprintf (TrimSpace llm.userPromptLiteral)
                                                                [Str commitText] |} ];
                            Temperature := temperature (host w) |} |}
    with (completion (host w) commitText).
  rewrite <- reading_eq.
  destruct (heard _ _) as [resp | err]; [| reflexivity].
  destruct (negb _); [reflexivity |].
  destruct (Decode _); [| reflexivity].
  destruct (_ || _); reflexivity.
Qed.

Lemma ExplainCommit_effects commitText w :
  effects (llm.ExplainCommit commitText) w
  = (effects llm.StartLMStudio w
     ++ if succeeded (fst (llm.StartLMStudio w))
           && PrimFloat.is_finite (temperature (host w))
        then [Http (completion (host w) commitText)] else [])%list.
Proof.
  apply effects_app. rewrite ExplainCommit_eq.
  pose proof (runs_trace _ _ w StartLMStudio_notPost) as Ht.
  destruct (llm.StartLMStudio w) as [[e |] w1]; cbn [fst snd succeeded andb] in *.
  - rewrite app_nil_r. assumption.
  - destruct (PrimFloat.is_finite _); cbn [snd step trace].
    + rewrite Ht, app_assoc. reflexivity.
    + rewrite app_nil_r. assumption.
Qed.

Lemma ExplainCommit_posted commitText w :
  posted (effects (llm.ExplainCommit commitText) w)
  = if succeeded (fst (llm.StartLMStudio w))
       && PrimFloat.is_finite (temperature (host w))
    then [completion (host w) commitText] else [].
Proof.
  rewrite ExplainCommit_effects, posted_app.
  rewrite (posted_notPost _ (runs_Forall _ _ w StartLMStudio_notPost)).
  destruct (_ && _); reflexivity.
Qed.

(** The run ends with the request for a completion: the bootstrap
    succeeded, and the result is read off the answer to that request. *)
Lemma ExplainCommit_answered commitText w evs req :
  effects (llm.ExplainCommit commitText) w = (evs ++ [Http req])%list ->
  Method req = "POST" ->
  req = completion (host w) commitText
  /\ evs = effects llm.StartLMStudio w
  /\ fst (llm.ExplainCommit commitText w)
     = reading (heard (60 * Second)
                      (network (host w) (tick w + List.length evs) req)).
Proof.
  intros He Hm. rewrite ExplainCommit_effects in He.
  pose proof (runs_Forall _ _ w StartLMStudio_notPost) as Hall.
  pose proof (runs_tick _ _ w StartLMStudio_notPost) as Htick.
  rewrite ExplainCommit_eq.
  destruct (llm.StartLMStudio w) as [[e |] w1] eqn:Es;
    cbn [fst snd succeeded andb] in *.
  - exfalso. rewrite app_nil_r in He. rewrite He in Hall.
    apply Forall_app in Hall. destruct Hall as [_ Hall].
    inversion Hall as [| ? ? Hn _]. simpl in Hn. rewrite Hm in Hn. discriminate Hn.
  - destruct (PrimFloat.is_finite (temperature (host w))).
    + apply app_inj_tail in He. destruct He as [He Hr].
      injection Hr as Hr. subst req evs. repeat split.
      cbn [fst]. rewrite Htick. reflexivity.
    + exfalso. rewrite app_nil_r in He. rewrite He in Hall.
      apply Forall_app in Hall. destruct Hall as [_ Hall].
      inversion Hall as [| ? ? Hn _]. simpl in Hn. rewrite Hm in Hn. discriminate Hn.
Qed.

Lemma ExplainCommit_runs commitText :
  runs (llm.ExplainCommit commitText) (fun _ => True).
Proof.
  intros w. rewrite ExplainCommit_eq.
  destruct (StartLMStudio_notPost w) as (Hh & Hn & evs & Ht & _).
  destruct (llm.StartLMStudio w) as [[e |] w1]; cbn [snd] in *.
  - repeat split; try assumption. exists evs. split; [assumption |].
    apply Forall_forall; trivial.
  - destruct (PrimFloat.is_finite _); cbn [snd step host now trace].
    + repeat split; [assumption | lia |].
      exists (evs ++ [Http (completion (host w) commitText)])%list.
      rewrite Ht, app_assoc. split; [reflexivity |]. apply Forall_forall; trivial.
    + repeat split; try assumption. exists evs. split; [assumption |].
      apply Forall_forall; trivial.
Qed.

End Completion.

(** ** The client of the first revision *)

Section FirstRevision.

Context {lib : Library}.

(** The request of the first revision, under the environment of the
    host: the run sends nothing or this request alone. *)
Lemma explainCommit_world commitText w :
  snd (Legacy.explainCommit commitText w) = w
  \/ exists temp d,
       snd (Legacy.explainCommit commitText w)
       = step d
           (Http {| Method := "POST";
                    URL := TrimRight (if environ (host w) "LMSTUDIO_BASE_URL" =? ""
                                      then "http://localhost:1234/v1"
                                      else environ (host w) "LMSTUDIO_BASE_URL") "/"
                           ++ "/chat/completions";
                    Header := [ ("Content-Type", "application/json");
                                ("Authorization",
                                 "Bearer " ++ (if environ (host w) "LMSTUDIO_API_KEY" =? ""
                                               then "lm-studio"
                                               else environ (host w) "LMSTUDIO_API_KEY")) ];
                    Body := Some
                      {| Model := environ (host w) "LMSTUDIO_MODEL";
                         Messages :=
                           [ {| Role := "system";
                                Content := TrimSpace Legacy.systemPromptLiteral |};
                             {| Role := "user";
                                Content := Sprintf (TrimSpace llm.userPromptLiteral)
                                                   [Str commitText] |} ];
                         Temperature := temp |} |})
           w.
Proof.
  unfold Legacy.explainCommit. rewrite bind_eq, !Getenv_eq. cbn [fst snd].
  destruct (environ (host w) "LMSTUDIO_MODEL" =? ""); [left; reflexivity |].
  do 3 (rewrite bind_eq, !Getenv_eq; cbn [fst snd]).
  unfold Marshal. cbn [Temperature].
  destruct (PrimFloat.is_finite _); [| left; reflexivity].
  destruct (ParseURL _); [left; reflexivity |].
  right. rewrite bind_eq, Do_eq. cbn [fst snd]. eexists. eexists.
  destruct (heard _ _) as [resp | err]; [| reflexivity].
  destruct (negb _); [reflexivity |].
  destruct (Decode _); [| reflexivity].
  destruct (_ || _); reflexivity.
Qed.

End FirstRevision.

End ClientFacts.

(* ================================================================== *)
(** * The commit reader *)
(* ================================================================== *)

Module GitSpec.

Import EffectsFacts ClientFacts.

(** C4.  Let [p] be what [git show --stat --patch HEAD] does.  If it
    starts and exits with code 0 and its output is not made of white
    space only, [GetLatestCommit] returns that output trimmed: the
    output is the returned text between two stretches of white space,
    and the returned text is not empty and neither starts nor ends with
    a white-space rune.  If the command cannot be started, exits with
    another code, or prints nothing or white space only,
    [GetLatestCommit] fails with an error that the taxonomy classifies
    as an ExecutionError. *)
Theorem GetLatestCommit_trims_or_fails w :
  let p := system (host w) (tick w) gitShowArgv in
  let r := fst (git.GetLatestCommit w) in
  (started p = true -> exitCode p = 0 -> ~ WhiteSpace (stdout p) ->
     r = Ok (TrimSpace (stdout p))
     /\ Trimmed (stdout p) (TrimSpace (stdout p))
     /\ TrimSpace (stdout p) <> "")
  /\ (started p = false \/ exitCode p <> 0 \/ WhiteSpace (stdout p) ->
      exists e, r = Err e /\ kind e = Some ExecutionError).
Proof.
  cbv zeta. unfold git.GetLatestCommit. rewrite bind_eq.
  fold gitShowArgv. rewrite Output_fst. cbn [fst snd].
  destruct (wait_eq None gitShowArgv w) as (_ & _ & Hok).
  unfold exitsCleanly in Hok.
  set (p := system (host w) (tick w) gitShowArgv) in *.
  split.
  - intros Hs Hc Hws.
    assert (He : snd (fst (wait None gitShowArgv w)) = None).
    { apply Hok. rewrite Hs, Hc. reflexivity. }
    rewrite He.
    assert (Hne : TrimSpace (stdout p) <> "").
    { intros E. apply Hws. apply TrimSpace_empty. exact E. }
    destruct (String.eqb_spec (TrimSpace (stdout p)) "") as [E | _];
      [contradiction |].
    repeat split; try assumption; apply TrimSpace_Trimmed.
  - intros Hbad.
    destruct (snd (fst (wait None gitShowArgv w))) as [err |] eqn:He.
    + exists (ErrGitShow err). split; reflexivity.
    + destruct Hok as [Hok _]. specialize (Hok eq_refl).
      apply andb_prop in Hok. destruct Hok as [Hok Hc].
      apply andb_prop in Hok. destruct Hok as [Hs _].
      apply Nat.eqb_eq in Hc.
      destruct Hbad as [Hbad | [Hbad | Hbad]]; try congruence.
      apply TrimSpace_empty in Hbad. rewrite Hbad.
      exists ErrEmptyOutput. split; reflexivity.
Qed.

Lemma GetLatestCommit_trims_or_fails_witness :
  fst (git.GetLatestCommit (Sample.boot Sample.served)) = Ok Sample.commit
  /\ exists e,
       fst (git.GetLatestCommit
              (Sample.boot (Sample.withGit (Sample.exited 128 "" "fatal: not a git repository")
                                           Sample.served)))
       = Err e
       /\ kind e = Some ExecutionError.
Proof.
  split.
  - refine (proj1 (proj1 (GetLatestCommit_trims_or_fails (Sample.boot Sample.served))
                         eq_refl eq_refl _)).
    intros H. apply TrimSpace_empty in H. vm_compute in H. discriminate H.
  - apply (proj2 (GetLatestCommit_trims_or_fails
                    (Sample.boot (Sample.withGit
                       (Sample.exited 128 "" "fatal: not a git repository")
                       Sample.served)))).
    right; left. vm_compute. discriminate.
Defined.

End GitSpec.

(* ================================================================== *)
(** * The readiness check *)
(* ================================================================== *)

Module ProbeSpec.

Import EffectsFacts ClientFacts.

(** C7.  [IsRunning baseURL] sends one request, a GET of the endpoint
    of [baseURL], and returns true exactly when the network answers
    that request with a response of status 200 in less than the five
    seconds of the client's timeout; a failure of the network, a later
    answer and another status give false.  The function is total: it
    returns a boolean in every world.  For a base URL that is not empty
    and does not end with a slash the endpoint is [baseURL/models]. *)
Theorem IsRunning_true_iff_200 baseURL w :
  (fst (llm.IsRunning baseURL w) = true
   <-> exists resp after,
         network (host w) (tick w) (probe baseURL) = Responds resp after
         /\ (after < 5 * Second)%N /\ StatusCode resp = 200)
  /\ effects (llm.IsRunning baseURL) w = [Http (probe baseURL)]
  /\ Method (probe baseURL) = "GET"
  /\ (forall s c, baseURL = s ++ String c "" -> c <> "/"%char ->
        URL (probe baseURL) = baseURL ++ "/models").
Proof.
  split; [| split; [apply IsRunning_effects | split; [reflexivity |]]].
  - rewrite IsRunning_fst. unfold reachable, okWithin.
    destruct (network (host w) (tick w) (probe baseURL)) as [why after | resp after].
    + split; [discriminate | intros (resp & after' & E & _); discriminate E].
    + split.
      * intros H. apply andb_prop in H. destruct H as [Hlt H200].
        exists resp, after. repeat split;
          [apply N.ltb_lt; assumption | apply Nat.eqb_eq; assumption].
      * intros (resp' & after' & E & Hlt & H200). injection E as -> ->.
        apply andb_true_intro. split;
          [apply N.ltb_lt; assumption | apply Nat.eqb_eq; assumption].
  - intros s c -> Hc. unfold probe, endpoint. cbn [URL].
    destruct (String.eqb_spec (s ++ String c "") "") as [E | _].
    + destruct s; discriminate E.
    + rewrite TrimRight_keeps by assumption. reflexivity.
Qed.

(** C10.  [IsRunning] with the empty string does what it does with the
    default base URL: the same result and the same world in every
    world, after one GET of [http://localhost:1234/v1/models]. *)
Theorem IsRunning_empty_is_default w :
  llm.IsRunning "" w = llm.IsRunning llm.defaultBaseURL w
  /\ effects (llm.IsRunning "") w = [Http (probe "")]
  /\ probe ""
     = {| Method := "GET"; URL := "http://localhost:1234/v1/models";
          Header := []; Body := None |}.
Proof.
  split; [| split].
  - rewrite !IsRunning_eq. reflexivity.
  - apply IsRunning_effects.
  - reflexivity.
Qed.

End ProbeSpec.

(* ================================================================== *)
(** * The request for a completion *)
(* ================================================================== *)

Module CompletionSpec.

Import EffectsFacts ClientFacts.

Section Client.

Context {lib : Library}.

(** C1, as the code has it.  In [internal/llm/client.go] the base URL,
    the model and the API key are constants: whatever the environment
    holds, every request that [ExplainCommit] posts goes to
    [http://localhost:1234/v1/chat/completions], carries the
    authorization [Bearer lm-studio] and names the model
    [qwen/qwen3-4b-2507].  Only the temperature is read from the
    environment: it is 0.2 when [EXPLAIN_TEMPERATURE] is empty or does
    not parse, and the parsed value otherwise.  In the first revision
    ([explainCommit] of [main.go]) the base URL and the API key are
    read from [LMSTUDIO_BASE_URL] and [LMSTUDIO_API_KEY] with these
    defaults, and the model is read from [LMSTUDIO_MODEL], which has no
    default: without it the function fails before any request. *)
Theorem ExplainCommit_configuration commitText w :
  (forall req, In req (posted (effects (llm.ExplainCommit commitText) w)) ->
     URL req = "http://localhost:1234/v1/chat/completions"
     /\ header req "Authorization" = "Bearer lm-studio"
     /\ exists p,
          Body req = Some p
          /\ Model p = "qwen/qwen3-4b-2507"
          /\ (environ (host w) "EXPLAIN_TEMPERATURE" = "" ->
              Temperature p = 0.2%float)
          /\ (forall t, environ (host w) "EXPLAIN_TEMPERATURE" <> "" ->
                ParseFloat (environ (host w) "EXPLAIN_TEMPERATURE") = inl t ->
                Temperature p = t)
          /\ (forall why,
                ParseFloat (environ (host w) "EXPLAIN_TEMPERATURE") = inr why ->
                Temperature p = 0.2%float))
  /\ (environ (host w) "LMSTUDIO_MODEL" = "" ->
      Legacy.explainCommit commitText w = (Err ErrModelNotSet, w))
  /\ (forall req, In req (posted (effects (Legacy.explainCommit commitText) w)) ->
        URL req
        = TrimRight (if environ (host w) "LMSTUDIO_BASE_URL" =? ""
                     then "http://localhost:1234/v1"
                     else environ (host w) "LMSTUDIO_BASE_URL") "/"
          ++ "/chat/completions"
        /\ header req "Authorization"
           = "Bearer " ++ (if environ (host w) "LMSTUDIO_API_KEY" =? ""
                           then "lm-studio"
                           else environ (host w) "LMSTUDIO_API_KEY")
        /\ exists p, Body req = Some p
                     /\ Model p = environ (host w) "LMSTUDIO_MODEL").
Proof.
  split; [| split].
  - intros req Hin. rewrite ExplainCommit_posted in Hin.
    destruct (_ && _); [| contradiction].
    destruct Hin as [<- | []].
    split; [reflexivity |]. split; [reflexivity |].
    eexists. split; [reflexivity |]. split; [reflexivity |].
    cbn [Temperature]. unfold temperature.
    destruct (String.eqb_spec (environ (host w) "EXPLAIN_TEMPERATURE") "") as [E | E];
      cbn [negb].
    + split; [reflexivity | split].
      * intros t Ht. contradiction.
      * intros why _. reflexivity.
    + split; [| split].
      * intros E'. contradiction.
      * intros t _ ->. reflexivity.
      * intros why ->. reflexivity.
  - intros Hm. unfold Legacy.explainCommit. rewrite bind_eq, !Getenv_eq.
    cbn [fst snd]. rewrite Hm. reflexivity.
  - intros req Hin.
    destruct (explainCommit_world commitText w) as [E | (temp & d & E)].
    + rewrite (effects_app _ w []) in Hin; [contradiction |].
      rewrite E, app_nil_r. reflexivity.
    + rewrite (effects_app _ w _ (f_equal trace E)) in Hin.
      destruct Hin as [<- | []].
      split; [reflexivity |]. split; [reflexivity |].
      eexists. split; reflexivity.
Qed.

(** C5.  Every payload that [ExplainCommit] posts holds two messages,
    the first of role [system] and the second of role [user], and the
    content of the second is the commit text between a fixed opening
    line and a fixed closing line. *)
Theorem ExplainCommit_two_messages commitText w p :
  In p (payloads (posted (effects (llm.ExplainCommit commitText) w))) ->
  exists system user,
    Messages p = [system; user]
    /\ Role system = "system"
    /\ Role user = "user"
    /\ Content user
       = "Here is the latest commit on the current branch:" ++ newline ++ newline
         ++ commitText
         ++ newline ++ newline ++ "Explain this commit following the rules."
    /\ Substring commitText (Content user).
Proof.
  intros Hin. rewrite ExplainCommit_posted in Hin.
  destruct (_ && _); [| contradiction].
  destruct Hin as [<- | []].
  do 2 eexists. split; [reflexivity |]. cbn [Role Content].
  split; [reflexivity |]. split; [reflexivity |].
  assert (E : Sprintf (TrimSpace llm.userPromptLiteral) [Str commitText]
              = "Here is the latest commit on the current branch:" ++ newline ++ newline
                ++ commitText
                ++ newline ++ newline ++ "Explain this commit following the rules.").
  { vm_compute. reflexivity. }
  split; [exact E |].
  rewrite E.
  exists ("Here is the latest commit on the current branch:" ++ newline ++ newline),
         (newline ++ newline ++ "Explain this commit following the rules.").
  vm_compute. reflexivity.
Qed.

(** C9.  When [EXPLAIN_TEMPERATURE] is [0.7], which [strconv.ParseFloat]
    reads as 0.7, the temperature of every posted payload is 0.7; when
    its value does not parse, the temperature is 0.2. *)
Theorem ExplainCommit_temperature commitText w p :
  In p (payloads (posted (effects (llm.ExplainCommit commitText) w))) ->
  (environ (host w) "EXPLAIN_TEMPERATURE" = "0.7" ->
   ParseFloat "0.7" = inl 0.7%float ->
   Temperature p = 0.7%float)
  /\ (forall why,
        ParseFloat (environ (host w) "EXPLAIN_TEMPERATURE") = inr why ->
        Temperature p = 0.2%float).
Proof.
  intros Hin. rewrite ExplainCommit_posted in Hin.
  destruct (_ && _); [| contradiction].
  destruct Hin as [<- | []].
  cbn [Temperature]. unfold temperature. split.
  - intros -> ->. reflexivity.
  - intros why ->. destruct (negb _); reflexivity.
Qed.

(** C6.  Suppose that the run of [ExplainCommit] ends with a POST that
    the network answers, in less than the sixty seconds of the client's
    timeout, with a response of status 200 whose body decodes to
    [chatResp].  If [chatResp] has a first choice with a non-empty
    content, the result is that content trimmed.  If [chatResp] has no
    choice, or its first choice has an empty content, the result is the
    error for a missing content, an EmptyResponseError of the
    taxonomy. *)
Theorem ExplainCommit_reads_first_choice
        commitText w evs req resp after chatResp :
  effects (llm.ExplainCommit commitText) w = (evs ++ [Http req])%list ->
  Method req = "POST" ->
  network (host w) (tick w + List.length evs) req = Responds resp after ->
  (after < 60 * Second)%N ->
  StatusCode resp = 200 ->
  Decode (ResponseBody resp) = inl chatResp ->
  let r := fst (llm.ExplainCommit commitText w) in
  (forall first rest,
     Choices chatResp = first :: rest -> Content (Message first) <> "" ->
     r = Ok (TrimSpace (Content (Message first))))
  /\ (Choices chatResp = []
      \/ (exists first rest,
            Choices chatResp = first :: rest /\ Content (Message first) = "") ->
      r = Err ErrMissingContent
      /\ kind ErrMissingContent = Some EmptyResponseError).
Proof.
  intros He Hm Hnet Hlt H200 Hdec. cbv zeta.
  destruct (ExplainCommit_answered commitText w evs req He Hm) as (_ & _ & ->).
  rewrite Hnet. unfold heard. cbn [latency].
  apply N.ltb_lt in Hlt. rewrite Hlt.
  unfold reading. rewrite H200, Hdec. cbn [Nat.eqb negb].
  split.
  - intros first rest -> Hne.
    destruct (String.eqb_spec (Content (Message first)) "");
      [contradiction | reflexivity].
  - intros [-> | (first & rest & -> & E)]; [split; reflexivity |].
    rewrite E. split; reflexivity.
Qed.

End Client.

#[local] Existing Instance Sample.library.

(** In a sample run, the environment overrides the base URL, the model
    and the API key, and the request still goes to the default server
    with the default model and key; in the first revision a run without
    [LMSTUDIO_MODEL] fails. *)
Lemma ExplainCommit_ignores_overrides :
  environ (Sample.hostOf
             (Sample.withEnv [ ("LMSTUDIO_BASE_URL", "http://10.0.0.7:8080/v1");
                               ("LMSTUDIO_MODEL", "llama-3");
                               ("LMSTUDIO_API_KEY", "secret") ] Sample.served))
          "LMSTUDIO_MODEL" = "llama-3"
  /\ map (fun req => (URL req, header req "Authorization"))
         (posted (effects (llm.ExplainCommit Sample.commit)
                    (Sample.boot
                       (Sample.withEnv
                          [ ("LMSTUDIO_BASE_URL", "http://10.0.0.7:8080/v1");
                            ("LMSTUDIO_MODEL", "llama-3");
                            ("LMSTUDIO_API_KEY", "secret") ] Sample.served))))
     = [("http://localhost:1234/v1/chat/completions", "Bearer lm-studio")]
  /\ map Model
         (payloads
            (posted (effects (llm.ExplainCommit Sample.commit)
                       (Sample.boot
                          (Sample.withEnv
                             [ ("LMSTUDIO_BASE_URL", "http://10.0.0.7:8080/v1");
                               ("LMSTUDIO_MODEL", "llama-3");
                               ("LMSTUDIO_API_KEY", "secret") ] Sample.served)))))
     = ["qwen/qwen3-4b-2507"]
  /\ fst (Legacy.explainCommit Sample.commit (Sample.boot Sample.served))
     = Err ErrModelNotSet.
Proof. vm_compute. repeat split. Qed.

Lemma ExplainCommit_configuration_witness :
  Forall (fun req => URL req = "http://localhost:1234/v1/chat/completions")
         (posted (effects (llm.ExplainCommit Sample.commit)
                          (Sample.boot Sample.served)))
  /\ posted (effects (llm.ExplainCommit Sample.commit)
                     (Sample.boot Sample.served)) <> [].
Proof.
  split.
  - apply Forall_forall. intros req Hin.
    apply (proj1 (ExplainCommit_configuration Sample.commit
                    (Sample.boot Sample.served)) req Hin).
  - vm_compute. discriminate.
Defined.

Lemma ExplainCommit_two_messages_witness :
  Forall (fun p => exists system user,
            Messages p = [system; user]
            /\ Role system = "system"
            /\ Role user = "user"
            /\ Content user
               = "Here is the latest commit on the current branch:"
                 ++ newline ++ newline ++ Sample.commit
                 ++ newline ++ newline ++ "Explain this commit following the rules."
            /\ Substring Sample.commit (Content user))
         (payloads (posted (effects (llm.ExplainCommit Sample.commit)
                                    (Sample.boot Sample.served))))
  /\ payloads (posted (effects (llm.ExplainCommit Sample.commit)
                               (Sample.boot Sample.served))) <> [].
Proof.
  split.
  - apply Forall_forall. intros p Hin.
    exact (ExplainCommit_two_messages Sample.commit (Sample.boot Sample.served) p Hin).
  - vm_compute. discriminate.
Defined.

Lemma ExplainCommit_temperature_witness :
  (Forall (fun p => Temperature p = 0.7%float)
          (payloads (posted (effects (llm.ExplainCommit Sample.commit)
             (Sample.boot (Sample.withEnv [("EXPLAIN_TEMPERATURE", "0.7")]
                                          Sample.served)))))
   /\ payloads (posted (effects (llm.ExplainCommit Sample.commit)
             (Sample.boot (Sample.withEnv [("EXPLAIN_TEMPERATURE", "0.7")]
                                          Sample.served)))) <> [])
  /\ (Forall (fun p => Temperature p = 0.2%float)
             (payloads (posted (effects (llm.ExplainCommit Sample.commit)
                (Sample.boot (Sample.withEnv [("EXPLAIN_TEMPERATURE", "warm")]
                                             Sample.served)))))
      /\ payloads (posted (effects (llm.ExplainCommit Sample.commit)
                (Sample.boot (Sample.withEnv [("EXPLAIN_TEMPERATURE", "warm")]
                                             Sample.served)))) <> []).
Proof.
  split; split.
  - apply Forall_forall. intros p Hin.
    apply (proj1 (ExplainCommit_temperature Sample.commit _ p Hin));
      vm_compute; reflexivity.
  - vm_compute. discriminate.
  - apply Forall_forall. intros p Hin.
    apply (proj2 (ExplainCommit_temperature Sample.commit _ p Hin)
                 "strconv.ParseFloat: parsing: invalid syntax").
    vm_compute. reflexivity.
  - vm_compute. discriminate.
Defined.

Lemma ExplainCommit_reads_first_choice_witness :
  fst (llm.ExplainCommit Sample.commit (Sample.boot Sample.served))
  = Ok "It adds a flag."
  /\ fst (llm.ExplainCommit Sample.commit
            (Sample.boot
               (Sample.withCompletion
                  (Responds {| StatusCode := 200; ResponseBody := "{}" |} 1000000)
                  Sample.served)))
     = Err ErrMissingContent.
Proof.
  split.
  - refine (proj1 (ExplainCommit_reads_first_choice
              Sample.commit (Sample.boot Sample.served)
              [Http (probe llm.defaultBaseURL); Exec ["lms"; "version"]]
              (completion (Sample.hostOf Sample.served) Sample.commit)
              {| StatusCode := 200; ResponseBody := Sample.body " It adds a flag. " |}
              2000000000 (Sample.reply " It adds a flag. ")
              _ _ _ _ _ _)
            {| Message := {| Role := ""; Content := " It adds a flag. " |} |} []
            eq_refl _);
      try (vm_compute; reflexivity).
    vm_compute. discriminate.
  - refine (proj1 (proj2 (ExplainCommit_reads_first_choice
              Sample.commit
              (Sample.boot
                 (Sample.withCompletion
                    (Responds {| StatusCode := 200; ResponseBody := "{}" |} 1000000)
                    Sample.served))
              [Http (probe llm.defaultBaseURL); Exec ["lms"; "version"]]
              (completion (Sample.hostOf Sample.served) Sample.commit)
              {| StatusCode := 200; ResponseBody := "{}" |}
              1000000 {| Choices := [] |}
              _ _ _ _ _ _)
            (or_introl eq_refl)));
      vm_compute; reflexivity.
Defined.

End CompletionSpec.

(* ================================================================== *)
(** * The bootstrap *)
(* ================================================================== *)

Module BootstrapSpec.

Import EffectsFacts ClientFacts.

(** X26.  [waitForServer baseURL timeout] announces the wait and then
    polls: it probes the server, pauses one second after each probe
    that finds it unreachable, and stops with success at the first
    probe that finds it reachable.  It fails only with the time-out
    error, a TimeoutError of the taxonomy, and only when the clock has
    passed the time of the call by [timeout].  It sends at most one
    probe per second of [timeout], rounded up (thirty for the thirty
    seconds that [StartLMStudio] gives it), and on a host whose pauses
    oversleep by at most [J] it returns less than [timeout], six
    seconds and [J] after the call. *)
Theorem waitForServer_polls baseURL timeout w :
  let r := llm.waitForServer baseURL timeout w in
  exists evs,
    effects (llm.waitForServer baseURL timeout) w
    = Stdout ("Waiting for LM Studio server..." ++ newline) :: evs
    /\ polled (host w) baseURL (S (tick w)) evs (succeeded (fst r))
    /\ (fst r = None
        \/ fst r = Some (ErrWaitTimeout baseURL)
           /\ kind (ErrWaitTimeout baseURL) = Some TimeoutError
           /\ (now w + timeout <= now (snd r))%N)
    /\ List.length (requests evs) <= N.to_nat ((timeout + (Second - 1)) / Second)
    /\ N.to_nat ((30 * Second + (Second - 1)) / Second) = 30
    /\ forall J, (forall n, overslept (host w) n <= J)%N ->
         (now (snd r) < now w + timeout + 6 * Second + J)%N.
Proof.
  cbv zeta.
  assert (E : llm.waitForServer baseURL timeout w
              = llm.waitLoop baseURL (now w + 0 + timeout)
                  (step 0 (Stdout ("Waiting for LM Studio server..." ++ newline)) w)).
  { unfold llm.waitForServer. rewrite bind_eq. unfold Println at 1.
    cbn [fst snd]. rewrite bind_eq. reflexivity. }
  set (w0 := step 0 (Stdout ("Waiting for LM Studio server..." ++ newline)) w) in *.
  destruct (waitLoop_spec baseURL (now w + 0 + timeout) w0)
    as (Hh & Hn & evs & Ht & Hp & Hlen & Hres & Htime).
  rewrite <- E in *. clear E.
  exists evs. split; [| split; [| split; [| split; [| split]]]].
  - apply effects_app. rewrite Ht. unfold w0. cbn [step trace].
    rewrite <- app_assoc. reflexivity.
  - unfold w0 in Hp. rewrite tick_step in Hp. exact Hp.
  - destruct Hres as [Hres | [Hres Hdl]]; [left; assumption | right].
    repeat split; [assumption | lia].
  - unfold llm.remaining, w0 in Hlen. cbn [step now] in Hlen.
    replace (now w + 0 + timeout - (now w + 0))%N with timeout in Hlen by lia.
    exact Hlen.
  - reflexivity.
  - intros J HJ. specialize (Htime J HJ). unfold w0 in Htime.
    cbn [step now] in Htime. unfold Second in *. lia.
Qed.

(** C2, as the code has it.  Suppose that the server does not answer
    the first probe.  [StartLMStudio] of [internal/llm/client.go] then
    asks for the [lms] CLI with [lms version].  If the CLI answers, the
    next command is [lms server start]: the server is started
    headlessly.  If it does not, the function returns the error that
    the CLI is not available and runs nothing else, on every platform.
    In both cases it starts no process that it does not wait for and
    runs no command but [lms].  The bootstrap that launches the GUI
    application is the one of the earlier revision, which does not ask
    for the CLI: with [LM_STUDIO_CMD] unset it starts [open -a "LM
    Studio"] on darwin and [lmstudio] elsewhere, except on windows,
    where it starts nothing and returns the error that asks to start LM
    Studio manually. *)
Theorem StartLMStudio_unreachable w :
  reachable (host w) (tick w) llm.defaultBaseURL = false ->
  Forall bootstrapEvent (effects llm.StartLMStudio w)
  /\ (cliAvailable (host w) (2 + tick w) = true ->
      exists rest,
        commands (effects llm.StartLMStudio w)
        = ["lms"; "version"] :: ["lms"; "server"; "start"] :: rest)
  /\ (cliAvailable (host w) (2 + tick w) = false ->
      fst (llm.StartLMStudio w) = Some ErrNoCLI
      /\ commands (effects llm.StartLMStudio w) = [["lms"; "version"]])
  /\ (TrimSpace (environ (host w) "LM_STUDIO_CMD") = "" ->
      commands (effects Legacy.StartLMStudio_launch w)
      = (if GOOS (host w) =? "darwin" then [["open"; "-a"; "LM Studio"]]
         else if GOOS (host w) =? "windows" then []
         else [["lmstudio"]])
      /\ (GOOS (host w) = "windows" ->
          fst (Legacy.StartLMStudio_launch w) = Legacy.Returned (Some ErrWindows))).
Proof.
  intros Hdown.
  split; [apply (runs_Forall _ _ w StartLMStudio_runs) |].
  assert (E : exists w3,
             trace w3 = (trace w ++ [ Http (probe llm.defaultBaseURL);
                                      Stdout ("LM Studio server is not running" ++ newline);
                                      Exec ["lms"; "version"] ])%list
             /\ llm.StartLMStudio w
                = (if cliAvailable (host w) (2 + tick w)
                   then
                     (err <- llm.startServerWithCLI ;;
                      match err with
                      | Some e => ret (Some e)
                      | None =>
                          err <- llm.waitForServer llm.defaultBaseURL (30 * Second) ;;
                          match err with
                          | Some e => ret (Some e)
                          | None =>
                              loaded <- llm.isModelLoaded llm.defaultModel ;;
                              if negb loaded then
                                err <- llm.loadModel llm.defaultModel ;;
                                match err with
                                | Some e => ret (Some e)
                                | None => ret None
                                end
                              else ret None
                          end
                      end)%go
                   else ret (Some ErrNoCLI)) w3).
  { eexists. split; [| unfold llm.StartLMStudio; rewrite bind_eq, IsRunning_eq;
                       cbn [fst snd]; rewrite Hdown; rewrite bind_eq;
                       unfold Println at 1; cbn [fst snd];
                       rewrite bind_eq, isLMSCLIAvailable_eq; cbn [fst snd];
                       rewrite !tick_step; cbn [step host]; reflexivity].
    cbn [step trace]. rewrite <- !app_assoc. reflexivity. }
  destruct E as (w3 & Ht & E).
  split; [| split].
  - intros Hcli. rewrite Hcli in E. cbv iota in E.
    lazymatch type of E with _ = bind _ ?k _ =>
      assert (Hk : forall a, runs (k a) bootstrapEvent)
    end.
    { intros [e |]; bootstrap_tac. }
    rewrite bind_eq in E.
    pose proof (runs_trace _ _ (snd (llm.startServerWithCLI w3))
                  (Hk (fst (llm.startServerWithCLI w3)))) as Ht5.
    cbv beta in Ht5.
    rewrite <- E, startServerWithCLI_trace, Ht in Ht5.
    rewrite <- !app_assoc in Ht5.
    eexists. rewrite (effects_app _ w _ Ht5). cbn [app commands]. reflexivity.
  - intros Hcli. rewrite Hcli in E. cbv iota in E. rewrite E. cbn [ret fst snd].
    split; [reflexivity |].
    rewrite (effects_app _ w _ (eq_trans (f_equal (fun x => trace (snd x)) E) Ht)).
    reflexivity.
  - intros Henv. unfold Legacy.StartLMStudio_launch.
    assert (El : Legacy.StartLMStudio_launch w
                 = (if GOOS (host w) =? "darwin"
                    then (err <- Start ["open"; "-a"; "LM Studio"] ;;
                          match err with
                          | Some e => ret (Legacy.Returned (Some (ErrStartProcess e)))
                          | None => ret (Legacy.Waiting ["open"; "-a"; "LM Studio"])
                          end)%go
                    else if GOOS (host w) =? "windows"
                         then ret (Legacy.Returned (Some ErrWindows))
                         else (err <- Start ["lmstudio"] ;;
                               match err with
                               | Some e => ret (Legacy.Returned (Some (ErrStartProcess e)))
                               | None => ret (Legacy.Waiting ["lmstudio"])
                               end)%go)
                     (probed llm.defaultBaseURL w)).
    { unfold Legacy.StartLMStudio_launch, probed.
      rewrite bind_eq, IsRunning_eq. cbn [fst snd]. rewrite Hdown.
      rewrite bind_eq, Getenv_eq. cbn [fst snd]. rewrite bind_eq. cbn [fst snd step host].
      rewrite Henv. cbn [String.eqb negb].
      destruct (GOOS (host w) =? "darwin"); [reflexivity |].
      destruct (GOOS (host w) =? "windows"); reflexivity. }
    fold Legacy.StartLMStudio_launch.
    destruct (probed_facts llm.defaultBaseURL w) as (_ & Htp & _).
    split.
    + assert (Hs : forall argv w',
                 trace (snd ((err <- Start argv ;;
                              match err with
                              | Some e => ret (Legacy.Returned (Some (ErrStartProcess e)))
                              | None => ret (Legacy.Waiting argv)
                              end)%go w'))
                 = (trace w' ++ [Spawn argv])%list).
      { intros argv w'. rewrite bind_eq. unfold Start at 2.
        cbn [fst snd]. destruct (fst (Start argv w')); reflexivity. }
      destruct (GOOS (host w) =? "darwin");
        [| destruct (GOOS (host w) =? "windows")];
        (erewrite effects_app;
         [| rewrite El; first [rewrite Hs | cbn [ret snd]]; rewrite Htp;
            rewrite <- ?app_assoc; reflexivity]); reflexivity.
    + intros Hwin. rewrite El, Hwin. reflexivity.
Qed.

#[local] Existing Instance Sample.library.

(** A run on darwin in which the server is down and the [lms] CLI is
    not installed: the bootstrap runs [lms version] alone and returns
    the error that the CLI is not available; no application is
    launched.  A run of the earlier revision on linux with the CLI
    installed: it launches [lmstudio] and does not use the CLI. *)
Lemma StartLMStudio_launches_no_GUI :
  GOOS (Sample.hostOf (Sample.withGoos "darwin"
                         (Sample.withServer None false Sample.served))) = "darwin"
  /\ llm.StartLMStudio
       (Sample.boot (Sample.withGoos "darwin"
                       (Sample.withServer None false Sample.served)))
     = (Some ErrNoCLI,
        {| host := Sample.hostOf (Sample.withGoos "darwin"
                                    (Sample.withServer None false Sample.served));
           now := 1000000;
           trace := [ Http (probe llm.defaultBaseURL);
                      Stdout ("LM Studio server is not running" ++ newline);
                      Exec ["lms"; "version"] ] |})
  /\ commands (effects Legacy.StartLMStudio_launch
                 (Sample.boot (Sample.withServer None true Sample.served)))
     = [["lmstudio"]].
Proof. vm_compute. repeat split. Qed.

Lemma StartLMStudio_unreachable_witness :
  (exists rest,
     commands (effects llm.StartLMStudio
                 (Sample.boot (Sample.withServer None true Sample.served)))
     = ["lms"; "version"] :: ["lms"; "server"; "start"] :: rest)
  /\ fst (llm.StartLMStudio
            (Sample.boot (Sample.withServer None false Sample.served)))
     = Some ErrNoCLI.
Proof.
  split.
  - apply (proj1 (proj2 (StartLMStudio_unreachable
             (Sample.boot (Sample.withServer None true Sample.served)) eq_refl))).
    reflexivity.
  - apply (proj1 (proj2 (proj2 (StartLMStudio_unreachable
             (Sample.boot (Sample.withServer None false Sample.served)) eq_refl)))).
    reflexivity.
Defined.

End BootstrapSpec.

(* ================================================================== *)
(** * The command *)
(* ================================================================== *)

Module MainSpec.

Import EffectsFacts ClientFacts.

Section Main.

Context {lib : Library}.



End Main.

#[local] Existing Instance Sample.library.



End MainSpec.

(* ================================================================== *)
(** * More facts about the string functions and the subprocesses *)
(* ================================================================== *)

Module CallFacts.

Import EffectsFacts ClientFacts.

(** ** [strings.Contains] *)

Lemma containsBytes_spec s sub :
  containsBytes s sub = true
  <-> exists before after, s = (before ++ sub ++ after)%list.
Proof.
  induction s as [| c s IH].
  - cbn [containsBytes]. destruct (hasPrefix sub []) as [rest |] eqn:E.
    + apply hasPrefix_Some in E. split; [intros _ | reflexivity].
      exists [], rest. exact E.
    + split; [discriminate |]. intros (before & after & H).
      destruct before; [| discriminate H]. cbn [app] in H.
      apply hasPrefix_Some in H. congruence.
  - cbn [containsBytes]. destruct (hasPrefix sub (c :: s)) as [rest |] eqn:E.
    + apply hasPrefix_Some in E. split; [intros _ | reflexivity].
      exists [], rest. exact E.
    + rewrite IH. split.
      * intros (before & after & ->). exists (c :: before), after. reflexivity.
      * intros (before & after & H). destruct before as [| b before].
        -- cbn [app] in H. apply hasPrefix_Some in H. congruence.
        -- injection H as _ ->. exists before, after. reflexivity.
Qed.

Lemma Contains_Substring s sub : Contains s sub = true <-> Substring sub s.
Proof.
  unfold Contains, Substring. rewrite containsBytes_spec. split.
  - intros (before & after & H).
    exists (string_of_list_ascii before), (string_of_list_ascii after).
    rewrite <- (string_of_list_ascii_of_string s), H, !string_of_app.
    rewrite string_of_list_ascii_of_string. reflexivity.
  - intros (before & after & ->).
    exists (list_ascii_of_string before), (list_ascii_of_string after).
    rewrite !list_ascii_app. reflexivity.
Qed.

(** ** [strings.Fields] *)

Lemma fieldsBytes_open fuel s c cur : fieldsBytes fuel s (c :: cur) <> [].
Proof.
  revert s c cur. induction fuel as [| fuel IH]; intros s c cur; cbn [fieldsBytes].
  - discriminate.
  - destruct (cutRune spaceRunes s); [discriminate |].
    destruct s; [discriminate | apply IH].
Qed.

(** A string that is not empty and does not start with white space has
    a field. *)
Lemma Fields_nonempty s :
  s <> "" -> ~ startsWith spaceRunes (list_ascii_of_string s) -> Fields s <> [].
Proof.
  intros Hne Hs. unfold Fields. cbn [fieldsBytes].
  apply cutRune_None in Hs. rewrite Hs.
  destruct s as [| c s]; [congruence |]. cbn [list_ascii_of_string].
  intros E. apply map_eq_nil in E. revert E. apply fieldsBytes_open.
Qed.

(** ** [strings.TrimRight] *)

Lemma TrimRight_slash s : TrimRight (s ++ "/") "/" = TrimRight s "/".
Proof.
  unfold TrimRight, trimRightRunes, trimLeftRunes.
  rewrite list_ascii_app. cbn [list_ascii_of_string map].
  rewrite rev_app_distr. cbn [rev app List.length dropRunes cutRune hasPrefix].
  cbn [Ascii.eqb Bool.eqb]. reflexivity.
Qed.

(** ** The [lms] CLI *)

Lemma isModelLoaded_eq modelID w :
  llm.isModelLoaded modelID w
  = (exitsCleanly (Some (3 * Second)%N) (system (host w) (tick w) ["lms"; "ps"])
     && Contains (stdout (system (host w) (tick w) ["lms"; "ps"])) modelID,
     step (waited (Some (3 * Second)%N) (system (host w) (tick w) ["lms"; "ps"]))
          (Exec ["lms"; "ps"]) w).
Proof.
  unfold llm.isModelLoaded, Output. rewrite !bind_eq. cbn [andb ret fst snd].
  destruct (wait_eq (Some (3 * Second)%N) ["lms"; "ps"] w) as (Es & Ep & Ee).
  rewrite Es, Ep.
  destruct (snd (fst (wait _ _ w))) as [err |];
    destruct (exitsCleanly _ _); cbn [andb ret]; try reflexivity.
  - destruct Ee as [_ Ee]. discriminate (Ee eq_refl).
  - destruct Ee as [Ee _]. discriminate (Ee eq_refl).
Qed.

Lemma loadModel_eq modelID w :
  llm.loadModel modelID w
  = let w1 := step 0 (Stdout (Sprintf ("Loading model: %s..." ++ newline)
                                      [Str modelID])) w in
    let p := system (host w) (S (tick w)) ["lms"; "load"; modelID] in
    let w2 := step (waited (Some (60 * Second)%N) p) (Exec ["lms"; "load"; modelID]) w1 in
    if exitsCleanly (Some (60 * Second)%N) p
    then (None, step 0 (Stdout ("Model loaded successfully" ++ newline)) w2)
    else (Some (ErrLoadModel (combined p)), w2).
Proof.
  cbv zeta. unfold llm.loadModel. rewrite bind_eq. unfold Printf at 1.
  cbn [fst snd]. rewrite bind_eq, CombinedOutput_eq. cbn [fst snd].
  rewrite tick_step. cbn [step host].
  match goal with |- context [wait ?c ?a ?w0] =>
    destruct (wait_eq c a w0) as (_ & _ & Ee)
  end.
  rewrite tick_step in Ee. cbn [step host] in Ee.
  destruct (snd (fst (wait _ _ _))) as [err |];
    destruct (exitsCleanly _ _); try reflexivity.
  - destruct Ee as [_ Ee]. discriminate (Ee eq_refl).
  - destruct Ee as [Ee _]. discriminate (Ee eq_refl).
Qed.

Lemma startServerWithCLI_eq w :
  llm.startServerWithCLI w
  = let w1 := step 0 (Stdout ("Starting LM Studio server with `lms server start`..."
                              ++ newline)) w in
    let p := system (host w) (S (tick w)) ["lms"; "server"; "start"] in
    (if exitsCleanly None p then None else Some (ErrStartServer (combined p)),
     step (waited None p) (Exec ["lms"; "server"; "start"]) w1).
Proof.
  cbv zeta. unfold llm.startServerWithCLI. rewrite bind_eq. unfold Println at 1.
  cbn [fst snd]. rewrite bind_eq, CombinedOutput_eq. cbn [fst snd].
  rewrite tick_step. cbn [step host].
  match goal with |- context [wait ?c ?a ?w0] =>
    destruct (wait_eq c a w0) as (_ & _ & Ee)
  end.
  rewrite tick_step in Ee. cbn [step host] in Ee.
  destruct (snd (fst (wait _ _ _))) as [err |];
    destruct (exitsCleanly _ _); try reflexivity.
  - destruct Ee as [_ Ee]. discriminate (Ee eq_refl).
  - destruct Ee as [Ee _]. discriminate (Ee eq_refl).
Qed.


(** ** The first iteration of the polling loop *)

Lemma waitLoop_late baseURL deadline w :
  (deadline <= now w)%N ->
  llm.waitLoop baseURL deadline w = (Some (ErrWaitTimeout baseURL), w).
Proof.
  revert w. apply (waitLoop_rule baseURL deadline
    (fun w r => (deadline <= now w)%N -> r = (Some (ErrWaitTimeout baseURL), w))).
  - reflexivity.
  - intros w Hlt _ Hge. lia.
  - intros w r Hlt _ _ Hge. lia.
Qed.

Lemma waitLoop_ready baseURL deadline w :
  (now w < deadline)%N -> reachable (host w) (tick w) baseURL = true ->
  llm.waitLoop baseURL deadline w = (None, step 0 ready (probed baseURL w)).
Proof.
  revert w. apply (waitLoop_rule baseURL deadline
    (fun w r => (now w < deadline)%N -> reachable (host w) (tick w) baseURL = true ->
                r = (None, step 0 ready (probed baseURL w)))).
  - intros w Hge Hlt. lia.
  - reflexivity.
  - intros w r _ Hdown _ _ Hup. congruence.
Qed.

End CallFacts.

(* ================================================================== *)
(** * Further properties of the commit reader and of the readiness check *)
(* ================================================================== *)

Module ReaderProperties.

Import EffectsFacts ClientFacts CallFacts.

(** X1.  [GetLatestCommit] runs one command, [git show --stat --patch HEAD],
    sends no request and prints nothing; what the command writes to its
    standard error appears on the standard error of the program. *)
Theorem GetLatestCommit_runs_git_only w :
  commands (effects git.GetLatestCommit w) = [gitShowArgv]
  /\ requests (effects git.GetLatestCommit w) = []
  /\ printed (effects git.GetLatestCommit w) = ""
  /\ complaints (effects git.GetLatestCommit w)
     = stderr (system (host w) (tick w) gitShowArgv).
Proof.
  rewrite GetLatestCommit_effects.
  destruct (String.eqb_spec (stderr (system (host w) (tick w) gitShowArgv)) "")
    as [E | _]; cbn [negb commands requests printed complaints].
  - rewrite E. repeat split.
  - rewrite append_nil_r. repeat split.
Qed.

(** X2.  A text that [GetLatestCommit] returns is not empty, is left as it
    is by [strings.TrimSpace], and occurs in the output of [git show]. *)
Theorem GetLatestCommit_returns_trimmed w commitText :
  fst (git.GetLatestCommit w) = Ok commitText ->
  commitText <> ""
  /\ TrimSpace commitText = commitText
  /\ Substring commitText (stdout (system (host w) (tick w) gitShowArgv)).
Proof.
  unfold git.GetLatestCommit. rewrite bind_eq. fold gitShowArgv.
  rewrite Output_fst. cbn [fst snd].
  destruct (snd (fst (wait None gitShowArgv w))); [discriminate |].
  destruct (String.eqb_spec (TrimSpace (stdout (system (host w) (tick w) gitShowArgv))) "")
    as [E | Hne]; [discriminate |].
  cbn [ret fst]. intros H. injection H as <-.
  split; [assumption |]. split; [apply TrimSpace_idempotent |].
  destruct (TrimSpace_Trimmed (stdout (system (host w) (tick w) gitShowArgv)))
    as ((l & r & _ & _ & E) & _).
  exists l, r. exact E.
Qed.

Lemma GetLatestCommit_returns_trimmed_witness :
  Sample.commit <> ""
  /\ TrimSpace Sample.commit = Sample.commit
  /\ Substring Sample.commit (newline ++ Sample.commit ++ newline).
Proof.
  exact (GetLatestCommit_returns_trimmed (Sample.boot Sample.served)
                                         Sample.commit eq_refl).
Defined.

(** X3.  Trailing slashes of the base URL make no difference to the
    readiness check. *)
Theorem IsRunning_trailing_slash baseURL w :
  baseURL <> "" ->
  llm.IsRunning (baseURL ++ "/") w = llm.IsRunning baseURL w.
Proof.
  intros Hne. rewrite !IsRunning_eq.
  assert (E : probe (baseURL ++ "/") = probe baseURL).
  { unfold probe, endpoint.
    destruct (String.eqb_spec (baseURL ++ "/") "") as [E | _];
      [destruct baseURL; discriminate E |].
    destruct (String.eqb_spec baseURL "") as [E | _]; [contradiction |].
    rewrite TrimRight_slash. reflexivity. }
  unfold reachable. rewrite E. reflexivity.
Qed.

Lemma IsRunning_trailing_slash_witness :
  llm.IsRunning "http://localhost:1234/v1/" (Sample.boot Sample.served)
  = llm.IsRunning "http://localhost:1234/v1" (Sample.boot Sample.served).
Proof.
  apply (IsRunning_trailing_slash "http://localhost:1234/v1"). discriminate.
Defined.


(** X5.  [lms server start] is run without a deadline: [startServerWithCLI]
    returns when the command ends, however long that takes.  For every
    bound there is a host on which the call takes longer. *)
Theorem startServerWithCLI_has_no_deadline (bound : N) :
  exists w,
    fst (llm.startServerWithCLI w) = None
    /\ (now w + bound < now (snd (llm.startServerWithCLI w)))%N.
Proof.
  exists {| host := {| environ := fun _ => "";
                       Args := [];
                       GOOS := "linux";
                       network := fun _ _ => Fails "connect: connection refused" 0;
                       system := fun _ _ =>
                         {| started := true; exitCode := 0; stdout := ""; stderr := "";
                            combined := ""; took := bound + 1 |};
                       overslept := fun _ => 0%N |};
            now := 0; trace := [] |}.
  rewrite startServerWithCLI_eq. cbv zeta.
  cbn [fst snd step now host system exitsCleanly waited started exitCode took
       andb Nat.eqb]. split; [reflexivity | lia].
Qed.

End ReaderProperties.

(* ================================================================== *)
(** * Further properties of the bootstrap *)
(* ================================================================== *)

Module BootstrapProperties.

Import EffectsFacts ClientFacts CallFacts.

(** X6.  [isModelLoaded] holds exactly when [lms ps] ends by itself within
    three seconds with exit code 0 and the identifier of the model
    occurs in what it prints: any occurrence counts, also inside a
    longer name, and a failure of the command counts as not loaded. *)
Theorem isModelLoaded_iff modelID w :
  fst (llm.isModelLoaded modelID w) = true
  <-> exitsCleanly (Some (3 * Second)%N) (system (host w) (tick w) ["lms"; "ps"]) = true
      /\ Substring modelID (stdout (system (host w) (tick w) ["lms"; "ps"])).
Proof.
  rewrite isModelLoaded_eq. cbn [fst].
  rewrite andb_true_iff, Contains_Substring. reflexivity.
Qed.

(** X7.  When the server answers the first probe, [StartLMStudio] asks for
    the CLI.  Without the CLI it returns at once, with success.  With
    the CLI it asks for the loaded models: if the default model is
    among them it runs nothing more; otherwise it runs [lms load] for
    the default model and fails exactly when that command fails, with
    an error that carries the output of the command. *)
Theorem StartLMStudio_reachable w :
  reachable (host w) (tick w) llm.defaultBaseURL = true ->
  let cli := cliAvailable (host w) (1 + tick w) in
  let ps := system (host w) (2 + tick w) ["lms"; "ps"] in
  let loaded :=
    exitsCleanly (Some (3 * Second)%N) ps && Contains (stdout ps) llm.defaultModel in
  let load := system (host w) (5 + tick w) ["lms"; "load"; llm.defaultModel] in
  (cli = false ->
   fst (llm.StartLMStudio w) = None
   /\ commands (effects llm.StartLMStudio w) = [["lms"; "version"]])
  /\ (cli = true -> loaded = true ->
      fst (llm.StartLMStudio w) = None
      /\ commands (effects llm.StartLMStudio w)
         = [["lms"; "version"]; ["lms"; "ps"]])
  /\ (cli = true -> loaded = false ->
      fst (llm.StartLMStudio w)
      = (if exitsCleanly (Some (60 * Second)%N) load then None
         else Some (ErrLoadModel (combined load)))
      /\ commands (effects llm.StartLMStudio w)
         = [["lms"; "version"]; ["lms"; "ps"]; ["lms"; "load"; llm.defaultModel]]).
Proof.
  intros Hup. cbv zeta.
  assert (E : llm.StartLMStudio w
              = (cli <- llm.isLMSCLIAvailable ;;
                 if cli then
                   loaded <- llm.isModelLoaded llm.defaultModel ;;
                   if negb loaded then
                     Println "Model is not loaded" ;;
                     err <- llm.loadModel llm.defaultModel ;;
                     match err with
                     | Some e => ret (Some e)
                     | None => ret None
                     end
                   else ret None
                 else ret None)%go (probed llm.defaultBaseURL w)).
  { unfold llm.StartLMStudio, probed. rewrite bind_eq, IsRunning_eq.
    cbn [fst snd]. rewrite Hup. reflexivity. }
  destruct (probed_facts llm.defaultBaseURL w) as (Hh & Ht & _).
  assert (Hk : tick (probed llm.defaultBaseURL w) = S (tick w)).
  { unfold tick. rewrite Ht, length_app. cbn [List.length]. lia. }
  rewrite bind_eq, isLMSCLIAvailable_eq in E. cbn [fst snd] in E.
  rewrite Hh, Hk in E.
  split; [| split].
  - intros Hcli. cbn [Nat.add] in Hcli. rewrite Hcli in E. rewrite E.
    split; [reflexivity |].
    rewrite (effects_app _ w [Http (probe llm.defaultBaseURL); Exec ["lms"; "version"]]);
      [reflexivity |].
    rewrite E. cbn [ret snd step trace]. rewrite Ht, <- app_assoc. reflexivity.
  - intros Hcli Hloaded. cbn [Nat.add] in Hcli, Hloaded. rewrite Hcli in E.
    rewrite bind_eq, isModelLoaded_eq in E. cbn [fst snd] in E.
    rewrite !tick_step in E. cbn [step host] in E. rewrite Hh, Hk in E.
    rewrite Hloaded in E. cbn [negb] in E.
    split; [rewrite E; reflexivity |].
    rewrite (effects_app _ w [Http (probe llm.defaultBaseURL);
                              Exec ["lms"; "version"]; Exec ["lms"; "ps"]]);
      [reflexivity |].
    rewrite E. cbn [ret snd step trace]. rewrite Ht, <- !app_assoc. reflexivity.
  - intros Hcli Hloaded. cbn [Nat.add] in Hcli, Hloaded. rewrite Hcli in E.
    rewrite bind_eq, isModelLoaded_eq in E. cbn [fst snd] in E.
    rewrite !tick_step in E. cbn [step host] in E. rewrite Hh, Hk in E.
    rewrite Hloaded in E. cbn [negb] in E.
    rewrite bind_eq in E. unfold Println at 1 in E. cbn [fst snd] in E.
    rewrite bind_eq, loadModel_eq in E. cbv zeta in E.
    rewrite !tick_step in E. cbn [step host] in E. rewrite Hh, Hk in E.
    cbn [Nat.add].
    destruct (exitsCleanly (Some (60 * Second)%N)
                (system (host w) (S (S (S (S (S (tick w))))))
                        ["lms"; "load"; llm.defaultModel]));
      cbn [fst snd ret] in E; (split; [rewrite E; reflexivity |]).
    + rewrite (effects_app _ w
        [Http (probe llm.defaultBaseURL); Exec ["lms"; "version"]; Exec ["lms"; "ps"];
         Stdout ("Model is not loaded" ++ newline);
         Stdout (Sprintf ("Loading model: %s..." ++ newline) [Str llm.defaultModel]);
         Exec ["lms"; "load"; llm.defaultModel];
         Stdout ("Model loaded successfully" ++ newline)]);
        [reflexivity |].
      rewrite E. cbn [ret snd step trace]. rewrite Ht, <- !app_assoc. reflexivity.
    + rewrite (effects_app _ w
        [Http (probe llm.defaultBaseURL); Exec ["lms"; "version"]; Exec ["lms"; "ps"];
         Stdout ("Model is not loaded" ++ newline);
         Stdout (Sprintf ("Loading model: %s..." ++ newline) [Str llm.defaultModel]);
         Exec ["lms"; "load"; llm.defaultModel]]);
        [reflexivity |].
      rewrite E. cbn [ret snd step trace]. rewrite Ht, <- !app_assoc. reflexivity.
Qed.

Lemma StartLMStudio_reachable_witness :
  (fst (llm.StartLMStudio (Sample.boot Sample.served)) = None
   /\ commands (effects llm.StartLMStudio (Sample.boot Sample.served))
      = [["lms"; "version"]])
  /\ (fst (llm.StartLMStudio
             (Sample.boot (Sample.withServer (Some 0) true Sample.served))) = None
      /\ commands (effects llm.StartLMStudio
                     (Sample.boot (Sample.withServer (Some 0) true Sample.served)))
         = [["lms"; "version"]; ["lms"; "ps"]]).
Proof.
  split.
  - apply (proj1 (StartLMStudio_reachable (Sample.boot Sample.served) eq_refl)).
    reflexivity.
  - apply (proj1 (proj2 (StartLMStudio_reachable
             (Sample.boot (Sample.withServer (Some 0) true Sample.served)) eq_refl)));
      reflexivity.
Defined.

(** X8.  With no time to wait, [waitForServer] gives up without a probe. *)
Theorem waitForServer_no_time baseURL w :
  llm.waitForServer baseURL 0 w
  = (Some (ErrWaitTimeout baseURL),
     step 0 (Stdout ("Waiting for LM Studio server..." ++ newline)) w).
Proof.
  unfold llm.waitForServer. rewrite bind_eq. unfold Println at 1.
  cbn [fst snd]. rewrite bind_eq. cbn [Now fst snd].
  apply waitLoop_late. cbn [step now]. lia.
Qed.

(** X9.  When there is time to wait and the server answers the first probe
    of [waitForServer], the wait ends with success after that probe,
    without a pause. *)
Theorem waitForServer_first_probe baseURL timeout w :
  (0 < timeout)%N ->
  reachable (host w) (S (tick w)) baseURL = true ->
  fst (llm.waitForServer baseURL timeout w) = None
  /\ effects (llm.waitForServer baseURL timeout) w
     = [ Stdout ("Waiting for LM Studio server..." ++ newline);
         Http (probe baseURL); ready ]
  /\ (now (snd (llm.waitForServer baseURL timeout w)) <= now w + 5 * Second)%N.
Proof.
  intros Hpos Hup.
  assert (E : llm.waitForServer baseURL timeout w
              = (None, step 0 ready
                         (probed baseURL
                            (step 0 (Stdout ("Waiting for LM Studio server..." ++ newline))
                                  w)))).
  { unfold llm.waitForServer. rewrite bind_eq. unfold Println at 1.
    cbn [fst snd]. rewrite bind_eq. cbn [Now fst snd].
    apply waitLoop_ready.
    - cbn [step now]. lia.
    - rewrite tick_step. exact Hup. }
  rewrite E. cbn [fst snd].
  destruct (probed_facts baseURL
              (step 0 (Stdout ("Waiting for LM Studio server..." ++ newline)) w))
    as (_ & Ht & Hn).
  split; [reflexivity |]. split.
  - apply effects_app. rewrite E. cbn [snd step trace]. rewrite Ht.
    cbn [step trace]. rewrite <- !app_assoc. reflexivity.
  - cbn [step now] in *. lia.
Qed.

Lemma waitForServer_first_probe_witness :
  fst (llm.waitForServer llm.defaultBaseURL (30 * Second)
         (Sample.boot Sample.served)) = None.
Proof.
  apply (waitForServer_first_probe llm.defaultBaseURL (30 * Second)
           (Sample.boot Sample.served)); reflexivity.
Defined.

End BootstrapProperties.

(* ================================================================== *)
(** * The bootstrap when the server is down *)
(* ================================================================== *)

Module StartProperties.

Import EffectsFacts ClientFacts CallFacts.

(** The result of the wait. *)
Lemma waitForServer_result baseURL timeout w :
  fst (llm.waitForServer baseURL timeout w) = None
  \/ fst (llm.waitForServer baseURL timeout w) = Some (ErrWaitTimeout baseURL)
     /\ (now w + timeout <= now (snd (llm.waitForServer baseURL timeout w)))%N.
Proof.
  assert (E : llm.waitForServer baseURL timeout w
              = llm.waitLoop baseURL (now w + 0 + timeout)
                  (step 0 (Stdout ("Waiting for LM Studio server..." ++ newline)) w)).
  { unfold llm.waitForServer. rewrite bind_eq. unfold Println at 1.
    cbn [fst snd]. rewrite bind_eq. reflexivity. }
  rewrite E.
  destruct (waitLoop_spec baseURL (now w + 0 + timeout)
              (step 0 (Stdout ("Waiting for LM Studio server..." ++ newline)) w))
    as (_ & _ & evs & _ & _ & _ & [Hres | [Hres Hdl]] & _);
    [left; assumption | right; split; [assumption | lia]].
Qed.

(** The bootstrap with the server down and the CLI present, from the
    start of the server on. *)
Lemma StartLMStudio_down_eq w :
  reachable (host w) (tick w) llm.defaultBaseURL = false ->
  cliAvailable (host w) (2 + tick w) = true ->
  exists w3,
    host w3 = host w
    /\ tick w3 = 3 + tick w
    /\ (now w <= now w3)%N
    /\ trace w3 = (trace w ++ [ Http (probe llm.defaultBaseURL);
                                Stdout ("LM Studio server is not running" ++ newline);
                                Exec ["lms"; "version"] ])%list
    /\ llm.StartLMStudio w
       = (err <- llm.startServerWithCLI ;;
          match err with
          | Some e => ret (Some e)
          | None =>
              err <- llm.waitForServer llm.defaultBaseURL (30 * Second) ;;
              match err with
              | Some e => ret (Some e)
              | None =>
                  loaded <- llm.isModelLoaded llm.defaultModel ;;
                  if negb loaded then
                    err <- llm.loadModel llm.defaultModel ;;
                    match err with
                    | Some e => ret (Some e)
                    | None => ret None
                    end
                  else ret None
              end
          end)%go w3.
Proof.
  intros Hdown Hcli. cbn [Nat.add] in Hcli. eexists.
  split; [| split; [| split; [| split]]];
    [| | | | unfold llm.StartLMStudio; rewrite bind_eq, IsRunning_eq;
             cbn [fst snd]; rewrite Hdown; rewrite bind_eq;
             unfold Println at 1; cbn [fst snd];
             rewrite bind_eq, isLMSCLIAvailable_eq; cbn [fst snd];
             rewrite !tick_step; cbn [step host]; rewrite Hcli; reflexivity].
  - reflexivity.
  - rewrite !tick_step. reflexivity.
  - cbn [step now]. lia.
  - cbn [step trace]. rewrite <- !app_assoc. reflexivity.
Qed.

(** X10.  When the server is down and [lms server start] fails, the bootstrap
    fails with the output of that command, without waiting for the
    server. *)
Theorem StartLMStudio_start_fails w :
  reachable (host w) (tick w) llm.defaultBaseURL = false ->
  cliAvailable (host w) (2 + tick w) = true ->
  exitsCleanly None (system (host w) (4 + tick w) ["lms"; "server"; "start"]) = false ->
  fst (llm.StartLMStudio w)
  = Some (ErrStartServer
            (combined (system (host w) (4 + tick w) ["lms"; "server"; "start"])))
  /\ requests (effects llm.StartLMStudio w) = [probe llm.defaultBaseURL]
  /\ commands (effects llm.StartLMStudio w)
     = [["lms"; "version"]; ["lms"; "server"; "start"]].
Proof.
  intros Hdown Hcli Hfail.
  destruct (StartLMStudio_down_eq w Hdown Hcli) as (w3 & Hh & Hk & _ & Ht & E).
  rewrite bind_eq, startServerWithCLI_eq in E. cbv zeta in E.
  cbn [fst snd] in E. rewrite Hh, Hk in E. cbn [Nat.add] in *.
  rewrite Hfail in E. cbn [ret] in E.
  split; [rewrite E; reflexivity |].
  rewrite (effects_app _ w
    [ Http (probe llm.defaultBaseURL);
      Stdout ("LM Studio server is not running" ++ newline);
      Exec ["lms"; "version"];
      Stdout ("Starting LM Studio server with `lms server start`..." ++ newline);
      Exec ["lms"; "server"; "start"] ]);
    [split; reflexivity |].
  rewrite E. cbn [ret snd step trace]. rewrite Ht, <- !app_assoc. reflexivity.
Qed.

Lemma StartLMStudio_start_fails_witness :
  fst (llm.StartLMStudio
         {| host := {| environ := fun _ => "";
                       Args := [];
                       GOOS := "linux";
                       network := fun _ _ => Fails "connect: connection refused" 1000;
                       system := fun _ argv =>
                         match argv with
                         | [_; "server"; _] => Sample.exited 1 "" "port 1234 is in use"
                         | _ => Sample.exited 0 "" ""
                         end;
                       overslept := fun _ => 0%N |};
            now := 0; trace := [] |})
  = Some (ErrStartServer "port 1234 is in use").
Proof.
  refine (proj1 (StartLMStudio_start_fails _ _ _ _)); reflexivity.
Defined.

(** X11.  A bootstrap that reports a time-out reports the one of the wait for
    the default server, and has then lasted at least thirty seconds. *)
Theorem StartLMStudio_timeout_after_thirty_seconds w e :
  fst (llm.StartLMStudio w) = Some e ->
  kind e = Some TimeoutError ->
  e = ErrWaitTimeout llm.defaultBaseURL
  /\ (now w + 30 * Second <= now (snd (llm.StartLMStudio w)))%N.
Proof.
  destruct (reachable (host w) (tick w) llm.defaultBaseURL) eqn:Hr.
  - (* the server is up: the only error is the one of [lms load] *)
    assert (E : llm.StartLMStudio w
                = (cli <- llm.isLMSCLIAvailable ;;
                   if cli then
                     loaded <- llm.isModelLoaded llm.defaultModel ;;
                     if negb loaded then
                       Println "Model is not loaded" ;;
                       err <- llm.loadModel llm.defaultModel ;;
                       match err with
                       | Some e => ret (Some e)
                       | None => ret None
                       end
                     else ret None
                   else ret None)%go (probed llm.defaultBaseURL w)).
    { unfold llm.StartLMStudio, probed. rewrite bind_eq, IsRunning_eq.
      cbn [fst snd]. rewrite Hr. reflexivity. }
    rewrite E, bind_eq.
    destruct (fst (llm.isLMSCLIAvailable _)); [| discriminate].
    rewrite bind_eq. destruct (fst (llm.isModelLoaded _ _)); cbn [negb];
      [discriminate |].
    rewrite bind_eq. unfold Println at 1. cbn [fst snd].
    rewrite bind_eq, loadModel_eq. cbv zeta.
    destruct (exitsCleanly _ _); cbn [fst snd ret]; [discriminate |].
    intros H. injection H as <-. discriminate.
  - destruct (cliAvailable (host w) (2 + tick w)) eqn:Hcli.
    + destruct (StartLMStudio_down_eq w Hr Hcli) as (w3 & _ & _ & Hn & _ & E).
      rewrite E, bind_eq, startServerWithCLI_eq. cbv zeta. cbn [fst snd].
      destruct (exitsCleanly None _);
        [| cbn [ret fst]; intros H; injection H as <-; discriminate].
      rewrite bind_eq.
      match goal with |- context [llm.waitForServer ?b ?t ?w5] =>
        destruct (waitForServer_result b t w5) as [Hw | [Hw Hdl]];
        assert (Hn5 : (now w <= now w5)%N) by (cbn [step now]; lia)
      end.
      * rewrite Hw. rewrite bind_eq.
        destruct (fst (llm.isModelLoaded _ _)); cbn [negb]; [discriminate |].
        rewrite bind_eq, loadModel_eq. cbv zeta.
        destruct (exitsCleanly _ _); cbn [fst snd ret]; [discriminate |].
        intros H. injection H as <-. discriminate.
      * rewrite Hw. cbn [ret fst snd]. intros H _. injection H as <-.
        split; [reflexivity | lia].
    + unfold llm.StartLMStudio. rewrite bind_eq, IsRunning_eq.
      cbn [fst snd]. rewrite Hr. rewrite bind_eq. unfold Println at 1.
      cbn [fst snd]. rewrite bind_eq, isLMSCLIAvailable_eq. cbn [fst snd].
      rewrite !tick_step. cbn [step host]. cbn [Nat.add] in Hcli. rewrite Hcli.
      cbn [ret fst]. intros H. injection H as <-. discriminate.
Qed.

Lemma StartLMStudio_timeout_after_thirty_seconds_witness :
  ErrWaitTimeout llm.defaultBaseURL = ErrWaitTimeout llm.defaultBaseURL
  /\ (now (Sample.boot (Sample.withServer None true Sample.served)) + 30 * Second
      <= now (snd (llm.StartLMStudio
                     (Sample.boot (Sample.withServer None true Sample.served)))))%N.
Proof.
  apply (StartLMStudio_timeout_after_thirty_seconds
           (Sample.boot (Sample.withServer None true Sample.served))
           (ErrWaitTimeout llm.defaultBaseURL)).
  - vm_compute. reflexivity.
  - reflexivity.
Defined.

End StartProperties.

(* ================================================================== *)
(** * Further properties of the request for a completion *)
(* ================================================================== *)

Module CompletionProperties.

Import EffectsFacts ClientFacts CallFacts.

Section Client.

Context {lib : Library}.

(** X12.  A run of [ExplainCommit] is a run of the bootstrap, followed by at
    most one more interaction: the request for the completion, which is
    sent only when the bootstrap succeeded.  Before it there are only
    probes of the default server, runs of [lms], messages and pauses. *)
Theorem ExplainCommit_posts_last commitText w :
  exists tail,
    effects (llm.ExplainCommit commitText) w
    = (effects llm.StartLMStudio w ++ tail)%list
    /\ Forall bootstrapEvent (effects llm.StartLMStudio w)
    /\ (tail = [] \/ tail = [Http (completion (host w) commitText)])
    /\ (tail <> [] -> fst (llm.StartLMStudio w) = None).
Proof.
  rewrite ExplainCommit_effects. eexists. split; [reflexivity |].
  split; [apply (runs_Forall _ _ w StartLMStudio_runs) |].
  destruct (fst (llm.StartLMStudio w)); cbn [succeeded andb].
  - split; [left; reflexivity | intros H; contradiction].
  - destruct (PrimFloat.is_finite _); split; auto.
Qed.

(** X13.  An error of the bootstrap is the error of [ExplainCommit], which
    then does nothing after the bootstrap and posts nothing. *)
Theorem ExplainCommit_bootstrap_error commitText w e :
  fst (llm.StartLMStudio w) = Some e ->
  llm.ExplainCommit commitText w = (Err e, snd (llm.StartLMStudio w))
  /\ posted (effects (llm.ExplainCommit commitText) w) = [].
Proof.
  intros He. rewrite ExplainCommit_posted, ExplainCommit_eq.
  destruct (llm.StartLMStudio w) as [r w1]. cbn [fst snd] in *. subst r.
  split; reflexivity.
Qed.

(** X14.  A temperature that parses to a value that is not finite (a NaN or
    an infinity) is not replaced by the default: the request cannot be
    encoded, [ExplainCommit] fails and posts nothing. *)
Theorem ExplainCommit_nonfinite_temperature commitText w t :
  fst (llm.StartLMStudio w) = None ->
  environ (host w) "EXPLAIN_TEMPERATURE" <> "" ->
  ParseFloat (environ (host w) "EXPLAIN_TEMPERATURE") = inl t ->
  PrimFloat.is_finite t = false ->
  (exists cause, fst (llm.ExplainCommit commitText w) = Err (ErrMarshal cause))
  /\ posted (effects (llm.ExplainCommit commitText) w) = [].
Proof.
  intros Hs Hne Hparse Hfin.
  assert (Ht : PrimFloat.is_finite (temperature (host w)) = false).
  { unfold temperature.
    destruct (String.eqb_spec (environ (host w) "EXPLAIN_TEMPERATURE") "");
      [contradiction |].
    cbn [negb]. rewrite Hparse. exact Hfin. }
  rewrite ExplainCommit_posted, ExplainCommit_eq, Ht, andb_false_r.
  destruct (llm.StartLMStudio w) as [r w1]. cbn [fst] in Hs. subst r.
  split; [eexists |]; reflexivity.
Qed.

(** X15.  The run ends with a POST that the server answers in time with a
    status other than 200: the result is the API error with that status
    and the body of the response. *)
Theorem ExplainCommit_api_error commitText w evs req resp after :
  effects (llm.ExplainCommit commitText) w = (evs ++ [Http req])%list ->
  Method req = "POST" ->
  network (host w) (tick w + List.length evs) req = Responds resp after ->
  (after < 60 * Second)%N ->
  StatusCode resp <> 200 ->
  fst (llm.ExplainCommit commitText w)
  = Err (ErrAPI (StatusCode resp) (ResponseBody resp))
  /\ kind (ErrAPI (StatusCode resp) (ResponseBody resp)) = Some APIError
  /\ Error (ErrAPI (StatusCode resp) (ResponseBody resp))
     = "API error: status " ++ Itoa (StatusCode resp) ++ ", body: "
       ++ ResponseBody resp.
Proof.
  intros He Hm Hnet Hlt Hs.
  destruct (ExplainCommit_answered commitText w evs req He Hm) as (_ & _ & ->).
  rewrite Hnet. unfold heard. cbn [latency].
  apply N.ltb_lt in Hlt. rewrite Hlt. unfold reading.
  apply Nat.eqb_neq in Hs. rewrite Hs. cbn [negb].
  split; [reflexivity |]. split; [reflexivity |].
  cbn. rewrite append_nil_r. reflexivity.
Qed.

(** X16.  The run ends with a POST that fails, or that is not answered
    within the sixty seconds of the client: the result is the error of
    a failed request, a TransportError of the taxonomy. *)
Theorem ExplainCommit_transport_error commitText w evs req :
  effects (llm.ExplainCommit commitText) w = (evs ++ [Http req])%list ->
  Method req = "POST" ->
  (exists why after,
     network (host w) (tick w + List.length evs) req = Fails why after)
  \/ (exists resp after,
        network (host w) (tick w + List.length evs) req = Responds resp after
        /\ (60 * Second <= after)%N) ->
  exists cause,
    fst (llm.ExplainCommit commitText w) = Err (ErrRequest cause)
    /\ kind (ErrRequest cause) = Some TransportError.
Proof.
  intros He Hm Hnet.
  destruct (ExplainCommit_answered commitText w evs req He Hm) as (_ & _ & ->).
  destruct Hnet as [(why & after & ->) | (resp & after & -> & Hge)];
    unfold heard; cbn [latency].
  - destruct (after <? 60 * Second)%N; eexists; split; reflexivity.
  - apply N.ltb_ge in Hge. rewrite Hge. eexists; split; reflexivity.
Qed.

(** X17.  The run ends with a POST that the server answers in time with
    status 200 and a body that does not decode: the result is the
    decoding error. *)
Theorem ExplainCommit_decode_error commitText w evs req resp after cause :
  effects (llm.ExplainCommit commitText) w = (evs ++ [Http req])%list ->
  Method req = "POST" ->
  network (host w) (tick w + List.length evs) req = Responds resp after ->
  (after < 60 * Second)%N ->
  StatusCode resp = 200 ->
  Decode (ResponseBody resp) = inr cause ->
  fst (llm.ExplainCommit commitText w) = Err (ErrDecode cause)
  /\ kind (ErrDecode cause) = Some DecodeError.
Proof.
  intros He Hm Hnet Hlt H200 Hdec.
  destruct (ExplainCommit_answered commitText w evs req He Hm) as (_ & _ & ->).
  rewrite Hnet. unfold heard. cbn [latency].
  apply N.ltb_lt in Hlt. rewrite Hlt. unfold reading.
  rewrite H200, Hdec. split; reflexivity.
Qed.

(** X18.  The content of the first choice is tested before it is trimmed: a
    content that is not empty and is made of white space gives the
    empty explanation, without an error. *)
Theorem ExplainCommit_blank_content
        commitText w evs req resp after chatResp first rest :
  effects (llm.ExplainCommit commitText) w = (evs ++ [Http req])%list ->
  Method req = "POST" ->
  network (host w) (tick w + List.length evs) req = Responds resp after ->
  (after < 60 * Second)%N ->
  StatusCode resp = 200 ->
  Decode (ResponseBody resp) = inl chatResp ->
  Choices chatResp = first :: rest ->
  Content (Message first) <> "" ->
  WhiteSpace (Content (Message first)) ->
  fst (llm.ExplainCommit commitText w) = Ok "".
Proof.
  intros He Hm Hnet Hlt H200 Hdec Hch Hne Hws.
  destruct (ExplainCommit_answered commitText w evs req He Hm) as (_ & _ & ->).
  rewrite Hnet. unfold heard. cbn [latency].
  apply N.ltb_lt in Hlt. rewrite Hlt. unfold reading.
  rewrite H200, Hdec, Hch. cbn [Nat.eqb negb].
  destruct (String.eqb_spec (Content (Message first)) ""); [contradiction |].
  apply TrimSpace_empty in Hws. rewrite Hws. reflexivity.
Qed.

(** X19.  An explanation that [ExplainCommit] returns is left as it is by
    [strings.TrimSpace]. *)
Theorem ExplainCommit_returns_trimmed commitText w explanation :
  fst (llm.ExplainCommit commitText w) = Ok explanation ->
  TrimSpace explanation = explanation.
Proof.
  rewrite ExplainCommit_eq.
  destruct (llm.StartLMStudio w) as [[e |] w1]; [discriminate |].
  destruct (PrimFloat.is_finite _); [| discriminate].
  cbn [fst]. unfold reading.
  destruct (heard _ _) as [resp | err]; [| discriminate].
  destruct (negb _); [discriminate |].
  destruct (Decode _) as [chatResp | err]; [| discriminate].
  destruct (Choices chatResp) as [| first rest]; [discriminate |].
  destruct (_ =? _); [discriminate |].
  intros H. injection H as <-. apply TrimSpace_idempotent.
Qed.

End Client.

#[local] Existing Instance Sample.library.

Lemma ExplainCommit_bootstrap_error_witness :
  fst (llm.ExplainCommit Sample.commit
         (Sample.boot (Sample.withServer None false Sample.served)))
  = Err ErrNoCLI
  /\ posted (effects (llm.ExplainCommit Sample.commit)
               (Sample.boot (Sample.withServer None false Sample.served))) = [].
Proof.
  destruct (ExplainCommit_bootstrap_error Sample.commit
              (Sample.boot (Sample.withServer None false Sample.served))
              ErrNoCLI eq_refl) as [E1 E2].
  split; [rewrite E1; reflexivity | exact E2].
Defined.

Lemma ExplainCommit_nonfinite_temperature_witness :
  (exists cause,
     fst (llm.ExplainCommit (lib := Special.library) Sample.commit
            (Sample.boot (Sample.withEnv [("EXPLAIN_TEMPERATURE", "NaN")]
                                         Sample.served)))
     = Err (ErrMarshal cause))
  /\ posted (effects (llm.ExplainCommit (lib := Special.library) Sample.commit)
               (Sample.boot (Sample.withEnv [("EXPLAIN_TEMPERATURE", "NaN")]
                                            Sample.served))) = [].
Proof.
  apply (ExplainCommit_nonfinite_temperature (lib := Special.library)
           Sample.commit _ PrimFloat.nan);
    vm_compute; solve [reflexivity | discriminate].
Defined.

Lemma ExplainCommit_api_error_witness :
  fst (llm.ExplainCommit Sample.commit
         (Sample.boot
            (Sample.withCompletion
               (Responds {| StatusCode := 404; ResponseBody := "model not found" |}
                         1000000)
               Sample.served)))
  = Err (ErrAPI 404 "model not found")
  /\ Error (ErrAPI 404 "model not found")
     = "API error: status 404, body: model not found".
Proof.
  destruct (ExplainCommit_api_error Sample.commit
              (Sample.boot
                 (Sample.withCompletion
                    (Responds {| StatusCode := 404; ResponseBody := "model not found" |}
                              1000000)
                    Sample.served))
              [Http (probe llm.defaultBaseURL); Exec ["lms"; "version"]]
              (completion (Sample.hostOf Sample.served) Sample.commit)
              {| StatusCode := 404; ResponseBody := "model not found" |}
              1000000) as (E1 & _ & E2);
    try (vm_compute; solve [reflexivity | discriminate]).
  split; [exact E1 | exact E2].
Defined.

Lemma ExplainCommit_transport_error_witness :
  exists cause,
    fst (llm.ExplainCommit Sample.commit
           (Sample.boot
              (Sample.withCompletion (Fails "connection reset by peer" 1000000)
                                     Sample.served)))
    = Err (ErrRequest cause)
    /\ kind (ErrRequest cause) = Some TransportError.
Proof.
  apply (ExplainCommit_transport_error Sample.commit
           (Sample.boot
              (Sample.withCompletion (Fails "connection reset by peer" 1000000)
                                     Sample.served))
           [Http (probe llm.defaultBaseURL); Exec ["lms"; "version"]]
           (completion (Sample.hostOf Sample.served) Sample.commit));
    try (vm_compute; reflexivity).
  left. exists "connection reset by peer", 1000000%N. vm_compute. reflexivity.
Defined.

Lemma ExplainCommit_decode_error_witness :
  fst (llm.ExplainCommit Sample.commit
         (Sample.boot
            (Sample.withCompletion
               (Responds {| StatusCode := 200; ResponseBody := "<html>" |} 1000000)
               Sample.served)))
  = Err (ErrDecode "json: cannot unmarshal into Go value of type llm.chatResponse").
Proof.
  apply (ExplainCommit_decode_error Sample.commit
           (Sample.boot
              (Sample.withCompletion
                 (Responds {| StatusCode := 200; ResponseBody := "<html>" |} 1000000)
                 Sample.served))
           [Http (probe llm.defaultBaseURL); Exec ["lms"; "version"]]
           (completion (Sample.hostOf Sample.served) Sample.commit)
           {| StatusCode := 200; ResponseBody := "<html>" |} 1000000);
    vm_compute; reflexivity.
Defined.

Lemma ExplainCommit_blank_content_witness :
  fst (llm.ExplainCommit Sample.commit
         (Sample.boot
            (Sample.withCompletion
               (Responds {| StatusCode := 200; ResponseBody := Sample.body "  " |}
                         1000000)
               Sample.served)))
  = Ok "".
Proof.
  apply (ExplainCommit_blank_content Sample.commit
           (Sample.boot
              (Sample.withCompletion
                 (Responds {| StatusCode := 200; ResponseBody := Sample.body "  " |}
                           1000000)
                 Sample.served))
           [Http (probe llm.defaultBaseURL); Exec ["lms"; "version"]]
           (completion (Sample.hostOf Sample.served) Sample.commit)
           {| StatusCode := 200; ResponseBody := Sample.body "  " |} 1000000
           (Sample.reply "  ")
           {| Message := {| Role := ""; Content := "  " |} |} []);
    try (vm_compute; solve [reflexivity | discriminate]).
  apply TrimSpace_empty. vm_compute. reflexivity.
Defined.

Lemma ExplainCommit_returns_trimmed_witness :
  TrimSpace "It adds a flag." = "It adds a flag.".
Proof.
  apply (ExplainCommit_returns_trimmed Sample.commit (Sample.boot Sample.served)).
  vm_compute. reflexivity.
Defined.

End CompletionProperties.

(* ================================================================== *)
(** * Further properties of the command *)
(* ================================================================== *)

Module MainProperties.

Import EffectsFacts ClientFacts CallFacts.

Section Main.

Context {lib : Library}.

(** Without the help flag, [main] prints its first line and reads the
    commit; the rest depends on the result. *)
Lemma main_eq w :
  helpFlag (host w) = false ->
  cmd.main w
  = (r <- git.GetLatestCommit ;;
     match r with
     | Err err => Fatalf "error: %v" [Str (Error err)] ;; ret 1
     | Ok commitText =>
         if rawFlag (host w)
         then
           Println "----- RAW COMMIT -----" ;; Println commitText ;; ret 0
         else
           Printf (bytes [226; 156; 147] ++ " Got commit (%d characters)" ++ newline)
                  [Int (String.length commitText)] ;;
           Println (bytes [240; 159; 167; 160]
                    ++ " Asking LM Studio to explain the commit...") ;;
           r <- llm.ExplainCommit commitText ;;
           match r with
           | Err err => Fatalf "error: %v" [Str (Error err)] ;; ret 1
           | Ok explanation =>
               Println (newline ++ bytes [240; 159; 147; 132] ++ " Explanation:") ;;
               Println explanation ;;
               ret 0
           end
     end)%go (step 0 (Stdout readingLine) w).
Proof.
  unfold helpFlag, rawFlag. intros Hhelp.
  unfold cmd.main. rewrite bind_eq.
  change (cmd.osArgs w) with (Args (host w), w). cbn [fst snd].
  rewrite Hhelp. rewrite bind_eq. unfold Println at 1. cbn [fst snd].
  reflexivity.
Qed.

(** X20.  With the help flag, [main] prints the usage and does nothing else:
    it runs no command, also not [git], and the exit status is 0. *)
Theorem main_help w :
  helpFlag (host w) = true ->
  fst (cmd.main w) = 0
  /\ effects cmd.main w = [Stdout (cmd.usage ++ newline)].
Proof.
  unfold helpFlag. intros Hhelp.
  assert (E : cmd.main w = (0, step 0 (Stdout (cmd.usage ++ newline)) w)).
  { unfold cmd.main. rewrite bind_eq.
    change (cmd.osArgs w) with (Args (host w), w). cbn [fst snd].
    rewrite Hhelp. reflexivity. }
  split; [rewrite E; reflexivity |].
  apply effects_app. rewrite E. reflexivity.
Qed.


(** X22.  Without the help flag and the raw flag, when the commit reader
    returns a text, [main] posts at most one request, and that request
    carries this text; when the exit status is 0 the request has been
    sent. *)
Theorem main_posts_the_commit w commitText :
  helpFlag (host w) = false ->
  rawFlag (host w) = false ->
  fst (git.GetLatestCommit (step 0 (Stdout readingLine) w)) = Ok commitText ->
  (posted (effects cmd.main w) = []
   \/ posted (effects cmd.main w) = [completion (host w) commitText])
  /\ (fst (cmd.main w) = 0 ->
      posted (effects cmd.main w) = [completion (host w) commitText]).
Proof.
  intros Hhelp Hraw Hok. pose proof (main_eq w Hhelp) as E.
  set (w1 := step 0 (Stdout readingLine) w) in *.
  pose proof (runs_trace _ _ w1 GetLatestCommit_runs) as Ht.
  pose proof (runs_Forall _ _ w1 GetLatestCommit_runs) as Hall.
  pose proof (runs_host _ _ w1 GetLatestCommit_runs) as Hh.
  rewrite bind_eq, Hok, Hraw in E. cbv iota in E.
  rewrite bind_eq in E. unfold Printf at 1 in E. cbn [fst snd] in E.
  rewrite bind_eq in E. unfold Println at 1 in E. cbn [fst snd] in E.
  rewrite bind_eq in E.
  match type of E with context [llm.ExplainCommit commitText ?w0] =>
    set (w3 := w0) in *
  end.
  assert (Hh3 : host w3 = host w) by (unfold w3; cbn [Println snd step host]; exact Hh).
  pose proof (runs_trace _ _ w3 (ExplainCommit_runs commitText)) as Ht3.
  pose proof (ExplainCommit_posted commitText w3) as Hp. rewrite Hh3 in Hp.
  pose proof (ExplainCommit_eq commitText w3) as Hr. rewrite Hh3 in Hr.
  assert (Hev : exists tail,
             effects cmd.main w
             = (Stdout readingLine :: effects git.GetLatestCommit w1
                ++ [ Stdout (Sprintf (bytes [226; 156; 147]
                                      ++ " Got commit (%d characters)" ++ newline)
                                     [Int (String.length commitText)]);
                     Stdout ((bytes [240; 159; 167; 160]
                              ++ " Asking LM Studio to explain the commit...")
                             ++ newline) ]
                ++ effects (llm.ExplainCommit commitText) w3 ++ tail)%list
             /\ Forall noHttp tail).
  { destruct (fst (llm.ExplainCommit commitText w3)) as [explanation | err] eqn:Er.
    - eexists. split.
      + apply effects_app. rewrite E.
        cbn [bind Println ret fst snd step trace]. rewrite Ht3. unfold w3.
        cbn [Println snd step trace]. rewrite Ht. unfold w1. cbn [step trace].
        rewrite <- !app_assoc. cbn [app]. reflexivity.
      + repeat constructor.
    - eexists. split.
      + apply effects_app. rewrite E.
        cbn [bind Fatalf ret fst snd step trace]. rewrite Ht3. unfold w3.
        cbn [Println snd step trace]. rewrite Ht. unfold w1. cbn [step trace].
        rewrite <- !app_assoc. cbn [app]. reflexivity.
      + repeat constructor. }
  destruct Hev as (tail & Hev & Htail).
  assert (Hposted : posted (effects cmd.main w)
                    = posted (effects (llm.ExplainCommit commitText) w3)).
  { rewrite Hev. cbn [posted]. rewrite !posted_app.
    rewrite (posted_notPost (effects git.GetLatestCommit w1)),
            (posted_notPost tail).
    - cbn [posted app]. apply app_nil_r.
    - eapply Forall_impl; [apply noHttp_notPost | exact Htail].
    - eapply Forall_impl; [apply noHttp_notPost | exact Hall]. }
  rewrite Hposted, Hp. split.
  - destruct (_ && _); auto.
  - rewrite E, Hr.
    destruct (llm.StartLMStudio w3) as [[e |] w4]; cbn [fst snd succeeded andb];
      [discriminate |].
    destruct (PrimFloat.is_finite _); [reflexivity | discriminate].
Qed.

End Main.

#[local] Existing Instance Sample.library.

Lemma main_help_witness :
  fst (cmd.main (Sample.boot (Sample.withArgs ["explain-commit"; "-h"]
                                              Sample.served))) = 0
  /\ effects cmd.main (Sample.boot (Sample.withArgs ["explain-commit"; "-h"]
                                                    Sample.served))
     = [Stdout (cmd.usage ++ newline)].
Proof.
  apply (main_help (Sample.boot (Sample.withArgs ["explain-commit"; "-h"]
                                                 Sample.served))).
  reflexivity.
Defined.


Lemma main_posts_the_commit_witness :
  posted (effects cmd.main (Sample.boot Sample.served))
  = [completion (Sample.hostOf Sample.served) Sample.commit].
Proof.
  apply (proj2 (main_posts_the_commit (Sample.boot Sample.served) Sample.commit
                  eq_refl eq_refl eq_refl)).
  vm_compute. reflexivity.
Defined.

End MainProperties.

(* ================================================================== *)
(** * Properties of the earlier revisions *)
(* ================================================================== *)

Module FirstRevisionProperties.

Import EffectsFacts ClientFacts CallFacts.

(** The command of [LM_STUDIO_CMD], trimmed, has a field as soon as it
    is not empty. *)
Lemma trimmed_has_fields s : TrimSpace s <> "" -> Fields (TrimSpace s) <> [].
Proof.
  intros Hne. apply Fields_nonempty; [assumption |].
  apply (TrimSpace_Trimmed s).
Qed.

(** The launch of the earlier bootstrap, with the choice of the command
    made explicit. *)
Lemma StartLMStudio_launch_eq w :
  reachable (host w) (tick w) llm.defaultBaseURL = false ->
  Legacy.StartLMStudio_launch w
  = match
      (if negb (TrimSpace (environ (host w) "LM_STUDIO_CMD") =? "")
       then
         if (List.length (Fields (TrimSpace (environ (host w) "LM_STUDIO_CMD"))) =? 0)%nat
         then inl ErrCmdEmpty
         else inr (Fields (TrimSpace (environ (host w) "LM_STUDIO_CMD")))
       else if GOOS (host w) =? "darwin" then inr ["open"; "-a"; "LM Studio"]
            else if GOOS (host w) =? "windows" then inl ErrWindows
                 else inr ["lmstudio"])
    with
    | inl e => (Legacy.Returned (Some e), probed llm.defaultBaseURL w)
    | inr argv =>
        (if started (system (host w) (S (tick w)) argv)
         then Legacy.Waiting argv
         else Legacy.Returned
                (Some (ErrStartProcess "executable file not found in $PATH")),
         step 0 (Spawn argv) (probed llm.defaultBaseURL w))
    end.
Proof.
  intros Hdown. unfold Legacy.StartLMStudio_launch, probed.
  rewrite bind_eq, IsRunning_eq. cbn [fst snd]. rewrite Hdown.
  rewrite bind_eq, Getenv_eq. cbn [fst snd]. rewrite bind_eq.
  cbn [fst snd step host].
  destruct (if negb _ then _ else _) as [e | argv]; [reflexivity |].
  rewrite bind_eq. unfold Start. cbn [fst snd]. rewrite tick_step.
  cbn [step host]. destruct (started _); reflexivity.
Qed.

(** X23.  The error that [LM_STUDIO_CMD] is set but empty is never returned:
    the value is tested after trimming, and a trimmed value that is not
    empty has a field. *)
Theorem StartLMStudio_launch_never_reports_empty_command w :
  fst (Legacy.StartLMStudio_launch w) <> Legacy.Returned (Some ErrCmdEmpty).
Proof.
  destruct (reachable (host w) (tick w) llm.defaultBaseURL) eqn:Hr.
  - unfold Legacy.StartLMStudio_launch. rewrite bind_eq, IsRunning_eq.
    cbn [fst snd]. rewrite Hr. discriminate.
  - rewrite (StartLMStudio_launch_eq w Hr).
    destruct (String.eqb_spec (TrimSpace (environ (host w) "LM_STUDIO_CMD")) "")
      as [E | Hne]; cbn [negb].
    + destruct (GOOS (host w) =? "darwin");
        [| destruct (GOOS (host w) =? "windows")]; cbn [fst];
        try destruct (started _); discriminate.
    + pose proof (trimmed_has_fields _ Hne) as Hf.
      destruct (Fields (TrimSpace (environ (host w) "LM_STUDIO_CMD")))
        as [| f fs]; [contradiction |].
      cbn [List.length Nat.eqb fst]. destruct (started _); discriminate.
Qed.

(** X24.  When the server is down and [LM_STUDIO_CMD] holds a command, the
    earlier bootstrap starts that command, split at white space, on
    every platform: also on windows, where it would otherwise return
    the error that asks to start LM Studio manually. *)
Theorem StartLMStudio_launch_custom_command w :
  reachable (host w) (tick w) llm.defaultBaseURL = false ->
  TrimSpace (environ (host w) "LM_STUDIO_CMD") <> "" ->
  effects Legacy.StartLMStudio_launch w
  = [ Http (probe llm.defaultBaseURL);
      Spawn (Fields (TrimSpace (environ (host w) "LM_STUDIO_CMD"))) ]
  /\ Fields (TrimSpace (environ (host w) "LM_STUDIO_CMD")) <> [].
Proof.
  intros Hdown Hne. split; [| apply trimmed_has_fields; assumption].
  apply effects_app. rewrite (StartLMStudio_launch_eq w Hdown).
  destruct (String.eqb_spec (TrimSpace (environ (host w) "LM_STUDIO_CMD")) "")
    as [E | _]; [contradiction |]. cbn [negb].
  pose proof (trimmed_has_fields _ Hne) as Hf.
  destruct (Fields (TrimSpace (environ (host w) "LM_STUDIO_CMD")))
    as [| f fs]; [contradiction |].
  cbn [List.length Nat.eqb snd step trace].
  destruct (probed_facts llm.defaultBaseURL w) as (_ & Ht & _).
  rewrite Ht, <- app_assoc. reflexivity.
Qed.

Lemma StartLMStudio_launch_custom_command_witness :
  effects Legacy.StartLMStudio_launch
    (Sample.boot
       (Sample.withEnv [("LM_STUDIO_CMD", "  flatpak run ai.lmstudio ")]
          (Sample.withGoos "windows" (Sample.withServer None false Sample.served))))
  = [ Http (probe llm.defaultBaseURL);
      Spawn ["flatpak"; "run"; "ai.lmstudio"] ].
Proof.
  refine (proj1 (StartLMStudio_launch_custom_command
            (Sample.boot
               (Sample.withEnv [("LM_STUDIO_CMD", "  flatpak run ai.lmstudio ")]
                  (Sample.withGoos "windows"
                     (Sample.withServer None false Sample.served))))
            eq_refl _)).
  vm_compute. discriminate.
Defined.

Section Client.

Context {lib : Library}.

(** X25.  The client of the first revision does not probe the server and
    runs no command: a run is empty or is one POST. *)
Theorem explainCommit_sends_one_request_at_most commitText w :
  effects (Legacy.explainCommit commitText) w = []
  \/ exists req,
       effects (Legacy.explainCommit commitText) w = [Http req]
       /\ Method req = "POST".
Proof.
  destruct (explainCommit_world commitText w) as [E | (temp & d & E)].
  - left. apply effects_app. rewrite E, app_nil_r. reflexivity.
  - right. eexists. split; [apply effects_app; rewrite E; reflexivity |].
    reflexivity.
Qed.

End Client.

End FirstRevisionProperties.

(* ================================================================== *)
(** * The wait of the bootstrap *)
(* ================================================================== *)

Module PollingSpec.

Import EffectsFacts ClientFacts CallFacts StartProperties.




#[local] Existing Instance Sample.library.


End PollingSpec.
